(** * CAN-Boat minimal reader: a shallow embedding of [read.py]

    The development follows the source file top to bottom: the Python
    values and exceptions the decoders traffic in, the handful of
    built-ins the parser relies on ([str.split], [int(_, 16)], [bytes],
    [struct.unpack]), the field decoders of class [Furuno], the dispatch
    table [field_decoders], the per-PGN field walks of
    [parse_raw_message], the acquisition loop [run] and the snapshot
    accessor [get_data].

    Python [float] is IEEE-754 binary64 and is modelled by Rocq's
    primitive floats; Python [int] is unbounded and is modelled by [Z];
    the dictionary [data_dict] is a [gmap] keyed by field name.  A line
    is a [string] whose characters are the code points below 256.  What
    the code prints is kept as a list of structured diagnostics, one per
    [print] call.  Exceptions are explicit: a computation either
    completes normally or raises, and a [try ... except Exception] turns
    a raise into a printed diagnostic.

    Not modelled: the serial port and [set_raw_mode], the decoding of the
    received bytes into text, and the module-level consumer loop that
    polls [get_data]. *)

From Stdlib Require Import ZArith Floats String Ascii List Lia Bool.
From Stdlib Require Import DecimalString.
From stdpp Require Import gmap strings list fin_maps.

Local Open Scope Z_scope.
Set Warnings "-inexact-float".

(** ** Python values, exceptions, printed diagnostics *)

(** The values that end up in [data_dict]: [int], [float], [str], and
    [None] (what [decode_angle_i16_field] returns when its guard trips). *)
Inductive pyval : Type :=
| VInt (z : Z)
| VFloat (f : float)
| VStr (s : string)
| VNone.

(** The exception classes the modelled code can raise. *)
Inductive exn : Type :=
| IndexError      (* list index out of range *)
| ValueError      (* int(tok, 16) on a bad token; bytes() on an int outside range(256) *)
| StructError     (* struct.error: unpack requires a buffer of n bytes *)
| TypeError       (* arithmetic on None or on a str *)
| OverflowError.  (* int too large to convert to float *)

Inductive completion (A : Type) : Type :=
| Normal (a : A)
| Raised (e : exn).
Arguments Normal {A} a.
Arguments Raised {A} e.

(** Sequencing: an exception raised by the first computation propagates. *)
#[global] Instance completion_bind : MBind completion :=
  fun A B k c =>
    match c with
    | Normal a => k a
    | Raised e => Raised e
    end.

(** What the code prints.  Each constructor is one [print] call of the
    source, carrying the values interpolated into its f-string. *)
Inductive diagnostic : Type :=
| WarnMessageLength (got expected : nat) (raw : string)
    (* "Warning: Message has {got} bytes, but expected {expected}. Raw data: {raw}" *)
| WarnIncomplete (expected got : nat) (raw : string)
    (* "Warning: Incomplete message. Expected {expected} bytes, got {got}. Raw data: {raw}" *)
| WarnInsufficientData (got : nat)
    (* "Warning: Insufficient data to decode field. Expected 2 bytes, got {got} bytes." *)
| CouldNotDecode (field_name : string) (e : exn) (data : list Z).
    (* "Could not decode field {field_name}. Error: {e}. Data: {data}" *)

(** ** Built-ins: [str.split], [str.strip], [int(_, 16)] *)

Definition code (c : ascii) : Z := Z.of_N (N_of_ascii c).

(** [str.isspace] on the code points below 256: TAB..CR, FS..US, SPACE,
    NEL and NBSP. *)
Definition py_isspace (c : ascii) : bool :=
  let n := code c in
  ((9 <=? n) && (n <=? 13)) || ((28 <=? n) && (n <=? 32)) || (n =? 133) || (n =? 160).

Definition flush (tok : list ascii) : list string :=
  match tok with
  | [] => []
  | _ => [string_of_list_ascii (rev tok)]
  end.

(** [split_go s tok]: [tok] holds, reversed, the characters of the token
    being read. *)
Fixpoint split_go (s : string) (tok : list ascii) : list string :=
  match s with
  | EmptyString => flush tok
  | String c s' =>
      if py_isspace c then flush tok ++ split_go s' [] else split_go s' (c :: tok)
  end.

(** [message.split()]: maximal runs of non-whitespace characters. *)
Definition str_split (message : string) : list string := split_go message [].

Fixpoint lstrip (s : string) : string :=
  match s with
  | String c s' => if py_isspace c then lstrip s' else s
  | EmptyString => EmptyString
  end.

Definition str_strip (s : string) : string :=
  let r := lstrip (string_of_list_ascii (rev (list_ascii_of_string (lstrip s)))) in
  string_of_list_ascii (rev (list_ascii_of_string r)).

(** Value of a base-16 digit character, [None] for any other character. *)
Definition digit_value (c : ascii) : option Z :=
  let n := code c in
  if (48 <=? n) && (n <=? 57) then Some (n - 48)
  else if (97 <=? n) && (n <=? 102) then Some (n - 87)
  else if (65 <=? n) && (n <=? 70) then Some (n - 55)
  else None.

(** The digit scan of [int]: hexadecimal digits, with single underscores
    allowed between digits only.  [prev_us] records that the previous
    character was an underscore, [seen] that at least one digit was read. *)
Fixpoint scan_digits (s : string) (prev_us seen : bool) (acc : Z) : option Z :=
  match s with
  | EmptyString => if prev_us then None else if seen then Some acc else None
  | String c s' =>
      if Ascii.eqb c "_" then
        if prev_us then None else scan_digits s' true seen acc
      else
        match digit_value c with
        | Some d => scan_digits s' false true (16 * acc + d)
        | None => None
        end
  end.

(** [int(tok, 16)] on a token without whitespace: an optional sign, an
    optional [0x]/[0X] prefix (after which one underscore is tolerated),
    then the digit scan.  [None] stands for [ValueError]. *)
Definition py_int16 (tok : string) : option Z :=
  let '(sign, s1) :=
    match tok with
    | String "+" r => (1, r)
    | String "-" r => (-1, r)
    | _ => (1, tok)
    end in
  let s2 :=
    match s1 with
    | String "0" (String x r) =>
        if Ascii.eqb x "x" || Ascii.eqb x "X" then
          match r with
          | String "_" r' => r'
          | _ => r
          end
        else s1
    | _ => s1
    end in
  match s2 with
  | String "_" _ => None
  | _ => option_map (Z.mul sign) (scan_digits s2 false false 0)
  end.

(** [[int(byte, 16) for byte in data_bytes]]: stops at the first bad token. *)
Fixpoint int16_all (data_bytes : list string) : completion (list Z) :=
  match data_bytes with
  | [] => Normal []
  | byte :: rest =>
      match py_int16 byte with
      | None => Raised ValueError
      | Some b => bs ← int16_all rest; Normal (b :: bs)
      end
  end.

(** ** Built-ins: [bytes], [struct.unpack], int-to-float conversion *)

Definition is_byte (b : Z) : bool := (0 <=? b) && (b <? 256).

(** [bytes(data)] for a list of ints. *)
Definition py_bytes (data : list Z) : completion (list Z) :=
  if forallb is_byte data then Normal data else Raised ValueError.

(** Little-endian value of a byte string. *)
Definition le_uint (bs : list Z) : Z :=
  fold_right (fun b acc => b + 256 * acc) 0 bs.

(** Two's-complement reading of a [w]-bit unsigned value. *)
Definition to_signed (w : Z) (u : Z) : Z :=
  if u <? 2 ^ (w - 1) then u else u - 2 ^ w.

(** [struct.unpack('<H', b)[0]], ['<h'], ['<I'], ['<i']: the buffer must
    have exactly the size of the format. *)
Definition unpack_le (size : nat) (signed : bool) (b : list Z) : completion Z :=
  if Nat.eqb (length b) size then
    Normal (if signed then to_signed (8 * Z.of_nat size) (le_uint b) else le_uint b)
  else Raised StructError.

Definition unpack_H := unpack_le 2 false.
Definition unpack_h := unpack_le 2 true.
Definition unpack_I := unpack_le 4 false.
Definition unpack_i := unpack_le 4 true.

(** Nearest binary64 of an integer, ties to even. *)
Definition Z2float (z : Z) : float :=
  SF2Prim (binary_normalize prec emax z 0 false).

(** Conversion of an [int] operand in mixed int/float arithmetic: Python
    raises [OverflowError] when the rounded value would not be finite. *)
Definition int_to_float (z : Z) : completion float :=
  if Z.abs z <? 2 ^ 1024 - 2 ^ 970 then Normal (Z2float z) else Raised OverflowError.

(** [np.pi], the binary64 nearest to pi (3.141592653589793). *)
Definition np_pi : float := 0x1.921fb54442d18p+1%float.

(** ** Float arithmetic used by [decode_time_field]

    Python's [float // float] and [float % float] are defined from C's
    [fmod] and [floor]; both are exact operations and are computed here on
    the exact value [m * 2^e] of their finite operands. *)

Definition signbit (f : float) : bool :=
  match Prim2SF f with
  | S754_zero s | S754_infinity s | S754_finite s _ _ => s
  | S754_nan => false
  end.

Definition signed_zero (s : bool) : float :=
  if s then (-0)%float else 0%float.

(** C [fmod x y]: [x - n*y] with [n] the quotient truncated towards zero;
    the result carries the sign of [x] and is exactly representable. *)
Definition c_fmod (x y : float) : float :=
  match Prim2SF x, Prim2SF y with
  | S754_nan, _ | _, S754_nan => nan
  | S754_infinity _, _ => nan
  | _, S754_zero _ => nan
  | _, S754_infinity _ => x
  | S754_zero _, _ => x
  | S754_finite sx mx ex, S754_finite _ my ey =>
      let e := Z.min ex ey in
      let r := (Z.pos mx * 2 ^ (ex - e)) mod (Z.pos my * 2 ^ (ey - e)) in
      if r =? 0 then signed_zero sx
      else SF2Prim (binary_normalize prec emax (if sx then - r else r) e sx)
  end.

(** C [floor]. *)
Definition c_floor (x : float) : float :=
  match Prim2SF x with
  | S754_finite s m e =>
      if 0 <=? e then x
      else
        let q := (if s then Z.neg m else Z.pos m) / 2 ^ (- e) in
        if q =? 0 then signed_zero s else Z2float q
  | _ => x
  end.

(** [vx % wx] on floats, for a non-zero divisor (every call site divides
    by a non-zero constant, so [ZeroDivisionError] cannot occur). *)
Definition py_float_mod (vx wx : float) : float :=
  let md := c_fmod vx wx in
  if negb (PrimFloat.eqb md 0) then
    if xorb (PrimFloat.ltb wx 0) (PrimFloat.ltb md 0) then (md + wx)%float else md
  else signed_zero (signbit wx).

(** [vx // wx] on floats, for a non-zero divisor. *)
Definition py_float_floordiv (vx wx : float) : float :=
  let md := c_fmod vx wx in
  let div := ((vx - md) / wx)%float in
  let div :=
    if negb (PrimFloat.eqb md 0) && xorb (PrimFloat.ltb wx 0) (PrimFloat.ltb md 0)
    then (div - 1)%float else div in
  if negb (PrimFloat.eqb div 0) then
    let fl := c_floor div in
    if PrimFloat.ltb 0.5 (div - fl) then (fl + 1)%float else fl
  else signed_zero (signbit (vx / wx)).

(** [int(x)] for a float: truncation towards zero. *)
Definition py_int_of_float (x : float) : completion Z :=
  match Prim2SF x with
  | S754_zero _ => Normal 0
  | S754_finite s m e =>
      let a := if 0 <=? e then Z.pos m * 2 ^ e else Z.pos m / 2 ^ (- e) in
      Normal (if s then - a else a)
  | S754_infinity _ => Raised OverflowError
  | S754_nan => Raised ValueError
  end.

(** ** String formatting *)

Definition decimal (n : Z) : string :=
  NilZero.string_of_uint (N.to_uint (Z.to_N n)).

Fixpoint zeros (n : nat) : string :=
  match n with
  | O => EmptyString
  | S n' => String "0" (zeros n')
  end.

Definition zfill (width : nat) (s : string) : string :=
  (zeros (width - String.length s) +:+ s)%string.

(** [f"{n:02}"] for an int. *)
Definition format_02 (n : Z) : string :=
  if n <? 0 then ("-" +:+ zfill 1 (decimal (- n)))%string else zfill 2 (decimal n).

(** [f"{x:06.3f}"] for a float: three decimals, correctly rounded (ties to
    even) from the exact binary value, zero-filled to six characters. *)
Definition format_06_3f (x : float) : string :=
  match Prim2SF x with
  | S754_nan => "000nan"%string
  | S754_infinity s => if s then "-00inf"%string else "000inf"%string
  | S754_zero s => if s then "-0.000"%string else "00.000"%string
  | S754_finite s m e =>
      let q :=
        if 0 <=? e then Z.pos m * 2 ^ e * 1000
        else
          let num := Z.pos m * 1000 in
          let den := 2 ^ (- e) in
          let q0 := num / den in
          let r := num mod den in
          if (den <? 2 * r) || ((den =? 2 * r) && Z.odd q0) then q0 + 1 else q0 in
      let body := (decimal (q / 1000) +:+ "." +:+ zfill 3 (decimal (q mod 1000)))%string in
      if s then ("-" +:+ zfill 5 body)%string else zfill 6 body
  end.

(** [time.gmtime(secs)], reduced to the calendar fields [strftime] reads
    below: year, month and day of the proleptic Gregorian date that lies
    [secs // 86400] days after 1970-01-01. *)
Definition gmtime (secs : Z) : Z * Z * Z :=
  let z := secs / 86400 + 719468 in
  let era := z / 146097 in
  let doe := z - era * 146097 in
  let yoe := (doe - doe / 1460 + doe / 36524 - doe / 146096) / 365 in
  let doy := doe - (365 * yoe + yoe / 4 - yoe / 100) in
  let mp := (5 * doy + 2) / 153 in
  let d := doy - (153 * mp + 2) / 5 + 1 in
  let m := if mp <? 10 then mp + 3 else mp - 9 in
  let y := yoe + era * 400 + (if m <=? 2 then 1 else 0) in
  (y, m, d).

(** [time.strftime('%Y-%m-%d', t)]. *)
Definition strftime_Ymd (t : Z * Z * Z) : string :=
  let '(y, m, d) := t in
  (zfill 4 (decimal y) +:+ "-" +:+ zfill 2 (decimal m) +:+ "-" +:+ zfill 2 (decimal d))%string.

(** ** Field decoders

    A decoder receives the slice of payload ints and either returns a
    value or raises; [decode_angle_i16_field] may also print.  The result
    is the pair of what was printed and how the call completed. *)

Abbreviation decoder := (list Z -> list diagnostic * completion pyval)%type.

(** A decoder body that prints nothing. *)
Definition silent (c : completion pyval) : list diagnostic * completion pyval := ([], c).

(** [data[i]] *)
Definition index (data : list Z) (i : nat) : completion Z :=
  match data !! i with
  | Some b => Normal b
  | None => Raised IndexError
  end.

Definition decode_uint8_field : decoder := fun data =>
  silent (b ← index data 0; Normal (VInt b)).

Definition decode_date_field : decoder := fun data =>
  silent (
    b ← py_bytes (take 2 data);
    days_since_1970 ← unpack_H b;
    Normal (VStr (strftime_Ymd (gmtime (days_since_1970 * 86400))))).

Definition decode_time_field : decoder := fun data =>
  silent (
    b ← py_bytes (take 4 data);
    ticks ← unpack_I b;
    let seconds_since_midnight := (Z2float ticks * 0.0001)%float in
    hours ← py_int_of_float (py_float_floordiv seconds_since_midnight (Z2float 3600));
    minutes ← py_int_of_float
      (py_float_floordiv (py_float_mod seconds_since_midnight (Z2float 3600)) (Z2float 60));
    let seconds := py_float_mod seconds_since_midnight (Z2float 60) in
    Normal (VStr (format_02 hours +:+ ":" +:+ format_02 minutes +:+ ":"
                  +:+ format_06_3f seconds))).

(** [struct.unpack] bounds [raw_value] by the width of its format, so the
    conversion of [raw_value] to float in [raw_value * 1e-7] is exact and
    cannot overflow. *)
Definition decode_longitude_i32_field : decoder := fun data =>
  silent (
    b ← py_bytes (take 4 data);
    raw_value ← unpack_i b;
    Normal (VFloat (Z2float raw_value * 1e-7))).

Definition decode_latitude_i32_field : decoder := fun data =>
  silent (
    b ← py_bytes (take 4 data);
    raw_value ← unpack_i b;
    Normal (VFloat (Z2float raw_value * 1e-7))).

Definition decode_company_field : decoder := fun data =>
  silent (
    b ← py_bytes (take 2 data);
    v ← unpack_H b;
    Normal (VInt v)).

Definition decode_angle_i16_field : decoder := fun data =>
  if negb (Nat.eqb (length data) 2) then
    ([WarnInsufficientData (length data)], Normal VNone)
  else
    silent (
      b ← py_bytes data;
      raw_value ← unpack_h b;
      Normal (VFloat (Z2float raw_value * 1e-4))).

Definition decode_angle_u16_field : decoder := fun data =>
  silent (
    b ← py_bytes data;
    raw_value ← unpack_H b;
    Normal (VFloat (Z2float raw_value * 1e-4))).

Definition decode_lookup_field : decoder := fun data =>
  silent (
    b ← py_bytes data;
    v ← unpack_H b;
    Normal (VInt v)).

(** [raw_value / 100] is the correctly rounded quotient of two ints, which
    for operands that are exact as floats is their IEEE quotient. *)
Definition decode_speed_u16_cm_field : decoder := fun data =>
  silent (
    b ← py_bytes data;
    raw_value ← unpack_H b;
    Normal (VFloat (Z2float raw_value / Z2float 100))).

Definition decode_manufacturer_field : decoder := fun data =>
  silent (
    d0 ← index data 0;
    d1 ← index data 1;
    Normal (VInt (Z.lor (Z.shiftl d0 3) (Z.shiftr d1 5)))).

Definition decode_industry_field : decoder := fun data =>
  silent (
    d1 ← index data 1;
    Normal (VInt (Z.land d1 7))).

(** ** The instance state set up by [__init__] *)

(** One entry of a field list: [{"name": ..., "length": ...}]. *)
Record field : Type := Field { field_name : string; field_length : nat }.

Definition field_decoders : gmap string decoder :=
  list_to_map
    [ ("Heading"%string, decode_angle_u16_field);
      ("Deviation"%string, decode_angle_i16_field);
      ("Variation"%string, decode_angle_i16_field);
      ("Reference"%string, decode_lookup_field);
      ("SID"%string, decode_uint8_field);
      ("Date"%string, decode_date_field);
      ("Time"%string, decode_time_field);
      ("Latitude"%string, decode_latitude_i32_field);
      ("Longitude"%string, decode_longitude_i32_field);
      ("A"%string, decode_uint8_field);
      ("B"%string, decode_uint8_field);
      ("Yaw"%string, decode_angle_i16_field);
      ("Pitch"%string, decode_angle_i16_field);
      ("Roll"%string, decode_angle_i16_field) ].

Definition field_list_gps : list field :=
  [ Field "Latitude" 4; Field "Longitude" 4 ].

Definition field_list_attitude : list field :=
  [ Field "SID" 1; Field "Yaw" 2; Field "Pitch" 2; Field "Roll" 2 ].

Definition field_list_heading : list field :=
  [ Field "SID" 1; Field "Heading" 2 ].

(** The state the methods of a [Furuno] object act on: its dictionary
    [data_dict] and, alongside it, what has been printed so far. *)
Record Furuno : Type := MkFuruno {
  data_dict : gmap string pyval;
  stdout : list diagnostic
}.

Definition print (d : diagnostic) (self : Furuno) : Furuno :=
  MkFuruno (data_dict self) (stdout self ++ [d]).

Definition print_all (ds : list diagnostic) (self : Furuno) : Furuno :=
  MkFuruno (data_dict self) (stdout self ++ ds).

(** The state [__init__] leaves: [self.data_dict = {}], nothing printed. *)
Definition init : Furuno := MkFuruno ∅ [].

(** [self.data_dict[key] = v] *)
Definition setitem (key : string) (v : pyval) (self : Furuno) : Furuno :=
  MkFuruno (<[key := v]> (data_dict self)) (stdout self).

(** ** [get_pgn_from_message] *)

Definition get_pgn_from_message (msgid : Z) : Z :=
  (* Shift 8 bits to discard the source address *)
  let shifted_msgid := Z.shiftr msgid 8 in
  (* Mask to get 18 bits representing the PGN *)
  let pgn := Z.land shifted_msgid 0x3FFFF in
  pgn.

(** ** [parse_raw_message] *)

(** The head of [parse_raw_message]: the tokens of the line and the
    payload ints, or the exception raised while extracting them. *)
Record RawFrame : Type := MkRawFrame {
  timestamp : string;
  direction : string;
  msgid : Z;
  int_data_bytes : list Z
}.

(** [parts[i]] *)
Definition part (parts : list string) (i : nat) : completion string :=
  match parts !! i with
  | Some p => Normal p
  | None => Raised IndexError
  end.

Definition int16 (tok : string) : completion Z :=
  match py_int16 tok with
  | Some z => Normal z
  | None => Raised ValueError
  end.

Definition parse_frame (message : string) : completion RawFrame :=
  let parts := str_split message in
  timestamp ← part parts 0;
  direction ← part parts 1;
  id ← part parts 2;
  msgid ← int16 id;
  let data_bytes := drop 3 parts in
  int_data_bytes ← int16_all data_bytes;
  Normal (MkRawFrame timestamp direction msgid int_data_bytes).

(** [int_data_bytes[start:start + field_length]] *)
Definition slice (int_data_bytes : list Z) (start field_length : nat) : list Z :=
  take field_length (drop start int_data_bytes).

(** [180 * v / np.pi].  The product is formed first; [180 * x] on a float
    converts the int 180 exactly.  On an int the product is an int and the
    division converts it; a [str] is repeated by [180 *] and then cannot be
    divided; [None] cannot be multiplied. *)
Definition to_degrees (v : pyval) : completion pyval :=
  match v with
  | VFloat x => Normal (VFloat (180 * x / np_pi))
  | VInt z => x ← int_to_float (180 * z); Normal (VFloat (x / np_pi))
  | VStr _ => Raised TypeError
  | VNone => Raised TypeError
  end.

(** The [try: self.data_dict[field_name] = rhs  except Exception as e:
    print(...)] statement.  [rhs] is the evaluated right-hand side: what
    its evaluation printed and how it completed. *)
Definition try_store (field_name : string) (data : list Z)
    (rhs : list diagnostic * completion pyval) (self : Furuno) : Furuno :=
  let self := print_all rhs.1 self in
  match rhs.2 with
  | Normal v => setitem field_name v self
  | Raised e => print (CouldNotDecode field_name e data) self
  end.

(** One iteration of the loop over [field_list_gps].  The loop state is
    the local [start] and the object.  [continue] leaves [start] as it is. *)
Definition step_gps (int_data_bytes : list Z) (st : nat * Furuno) (f : field)
    : nat * Furuno :=
  let '(start, self) := st in
  match field_decoders !! field_name f with
  | None => (start, self)
  | Some decoder =>
      let data := slice int_data_bytes start (field_length f) in
      let self :=
        if negb (String.eqb (field_name f) "SID") then
          try_store (field_name f) data (decoder data) self
        else self in
      ((start + field_length f)%nat, self)
  end.

(** One iteration of the loop over [field_list_cog_sog]: no test on
    [SID], no conversion. *)
Definition step_cog_sog (int_data_bytes : list Z) (st : nat * Furuno) (f : field)
    : nat * Furuno :=
  let '(start, self) := st in
  match field_decoders !! field_name f with
  | None => (start, self)
  | Some decoder =>
      let data := slice int_data_bytes start (field_length f) in
      let self := try_store (field_name f) data (decoder data) self in
      ((start + field_length f)%nat, self)
  end.

(** One iteration of the loops over [field_list_attitude] and
    [field_list_heading], whose bodies are the same text: the decoded
    value goes through [180 * _ / np.pi]. *)
Definition step_degrees (int_data_bytes : list Z) (st : nat * Furuno) (f : field)
    : nat * Furuno :=
  let '(start, self) := st in
  match field_decoders !! field_name f with
  | None => (start, self)
  | Some decoder =>
      let data := slice int_data_bytes start (field_length f) in
      let self :=
        if negb (String.eqb (field_name f) "SID") then
          let r := decoder data in
          try_store (field_name f) data (r.1, r.2 ≫= to_degrees) self
        else self in
      ((start + field_length f)%nat, self)
  end.

Definition expected_byte_count (field_list : list field) : nat :=
  sum_list (map field_length field_list).

(** The [pgn == 129025] branch; returns the final [start] with the object. *)
Definition walk_gps (message : string) (int_data_bytes : list Z) (self : Furuno)
    : nat * Furuno :=
  let start := 0%nat in
  let expected := expected_byte_count field_list_gps in
  let self :=
    if (List.length int_data_bytes <? expected)%nat
    then print (WarnMessageLength (List.length int_data_bytes) expected message) self
    else self in
  fold_left (step_gps int_data_bytes) field_list_gps (start, self).

(** The [pgn == 129026] branch, with its local field list. *)
Definition field_list_cog_sog : list field :=
  [ Field "SID" 1; Field "COG Reference" 1; Field "COG" 2; Field "SOG" 2 ].

Definition walk_cog_sog (message : string) (int_data_bytes : list Z) (self : Furuno)
    : nat * Furuno :=
  let start := 0%nat in
  let expected := expected_byte_count field_list_cog_sog in
  let self :=
    if (List.length int_data_bytes <? expected)%nat
    then print (WarnIncomplete expected (List.length int_data_bytes) message) self
    else self in
  fold_left (step_cog_sog int_data_bytes) field_list_cog_sog (start, self).

(** The [pgn == 127257] branch. *)
Definition walk_attitude (message : string) (int_data_bytes : list Z) (self : Furuno)
    : nat * Furuno :=
  let start := 0%nat in
  let expected := expected_byte_count field_list_attitude in
  let self :=
    if (List.length int_data_bytes <? expected)%nat
    then print (WarnMessageLength (List.length int_data_bytes) expected message) self
    else self in
  fold_left (step_degrees int_data_bytes) field_list_attitude (start, self).

(** The [pgn == 127250] branch. *)
Definition walk_heading (message : string) (int_data_bytes : list Z) (self : Furuno)
    : nat * Furuno :=
  let start := 0%nat in
  let expected := expected_byte_count field_list_heading in
  let self :=
    if (List.length int_data_bytes <? expected)%nat
    then print (WarnMessageLength (List.length int_data_bytes) expected message) self
    else self in
  fold_left (step_degrees int_data_bytes) field_list_heading (start, self).

(** The [if pgn == ... elif ...] chain on a parsed line. *)
Definition decode_frame (message : string) (fr : RawFrame) (self : Furuno) : Furuno :=
  let pgn := get_pgn_from_message (msgid fr) in
  if pgn =? 129025 then (walk_gps message (int_data_bytes fr) self).2
  else if pgn =? 129026 then (walk_cog_sog message (int_data_bytes fr) self).2
  else if pgn =? 127257 then (walk_attitude message (int_data_bytes fr) self).2
  else if pgn =? 127250 then (walk_heading message (int_data_bytes fr) self).2
  else self.

(** [parse_raw_message]: an exception raised while splitting the line and
    converting its tokens is not handled and leaves the function. *)
Definition parse_raw_message (message : string) (self : Furuno)
    : completion unit * Furuno :=
  match parse_frame message with
  | Raised e => (Raised e, self)
  | Normal fr => (Normal tt, decode_frame message fr self)
  end.

(** ** [run] and [get_data] *)

(** [run] on the lines [readline().decode()] delivers, in order.  The
    source loops forever; the list is the finite prefix of the stream read
    so far.  The loop body has no handler, so the first exception that
    leaves [parse_raw_message] ends the loop (and the thread), and the
    remaining lines are not read. *)
Fixpoint run (lines : list string) (self : Furuno) : completion unit * Furuno :=
  match lines with
  | [] => (Normal tt, self)
  | line :: rest =>
      let raw_message := str_strip line in
      match parse_raw_message raw_message self with
      | (Normal _, self') => run rest self'
      | (Raised e, self') => (Raised e, self')
      end
  end.

(** [get_data]: a copy of the dictionary, a value of its own. *)
Definition get_data (self : Furuno) : gmap string pyval := data_dict self.

(** ** Vocabulary of the statements below *)

(** What a field's [try] statement leaves in the dictionary when the
    decoder's float result is multiplied by 180 and divided by pi before
    it is stored... *)
Definition store_converted (r : completion pyval) (k : string)
    (m : gmap string pyval) : gmap string pyval :=
  match r with
  | Normal (VFloat x) => <[k := VFloat (180 * x / np_pi)]> m
  | _ => m
  end.

(** ... and when the decoder's result is stored as it is. *)
Definition store_unconverted (r : completion pyval) (k : string)
    (m : gmap string pyval) : gmap string pyval :=
  match r with
  | Normal v => <[k := v]> m
  | Raised _ => m
  end.

(** A decoder that never prints and never returns [None]. *)
Definition quiet_and_never_none (d : decoder) : Prop :=
  forall data, (d data).1 = [] /\ (d data).2 <> Normal VNone.

(** A sequence of dictionary assignments, applied in order. *)
Definition apply_writes (ws : list (string * pyval)) (m : gmap string pyval)
    : gmap string pyval :=
  fold_left (fun m kv => <[kv.1 := kv.2]> m) ws m.

(** [g] changes the dictionary only by assignments whose keys and values
    do not depend on the object it is applied to. *)
Definition overwrites (g : Furuno -> Furuno) : Prop :=
  exists ws, forall self, data_dict (g self) = apply_writes ws (data_dict self).

(** A loop step (or a whole walk) started on [self]: the offset it returns
    does not depend on [self], and its effect on [self] is [overwrites]. *)
Definition uniform (h : Furuno -> nat * Furuno) : Prop :=
  exists n g, overwrites g /\ forall self, h self = (n, g self).

(** ** The dictionary effect of a frame, as a list of assignments *)

(** The assignment a field's [try] statement performs when the decoder's
    result is stored as it is: none if the decoder raised. *)
Definition write_as_is (k : string) (r : completion pyval) : list (string * pyval) :=
  match r with
  | Normal v => [(k, v)]
  | Raised _ => []
  end.

(** The assignment it performs when the result goes through
    [180 * _ / np.pi] and the decoder is one of the angle decoders. *)
Definition write_degrees (k : string) (r : completion pyval) : list (string * pyval) :=
  match r with
  | Normal (VFloat x) => [(k, VFloat (180 * x / np_pi))]
  | _ => []
  end.

(** The assignments a frame with the given PGN and payload performs on
    [data_dict], in order. *)
Definition frame_writes (pgn : Z) (bytes : list Z) : list (string * pyval) :=
  if pgn =? 129025 then
    write_as_is "Latitude" (decode_latitude_i32_field (slice bytes 0 4)).2
    ++ write_as_is "Longitude" (decode_longitude_i32_field (slice bytes 4 4)).2
  else if pgn =? 129026 then
    write_as_is "SID" (decode_uint8_field (slice bytes 0 1)).2
  else if pgn =? 127257 then
    write_degrees "Yaw" (decode_angle_i16_field (slice bytes 1 2)).2
    ++ write_degrees "Pitch" (decode_angle_i16_field (slice bytes 3 2)).2
    ++ write_degrees "Roll" (decode_angle_i16_field (slice bytes 5 2)).2
  else if pgn =? 127250 then
    write_degrees "Heading" (decode_angle_u16_field (slice bytes 1 2)).2
  else [].

(** How many leading payload items the branch of a PGN can look at. *)
Definition bytes_read (pgn : Z) : nat :=
  if pgn =? 129025 then 8
  else if pgn =? 129026 then 1
  else if pgn =? 127257 then 7
  else if pgn =? 127250 then 3
  else 0.

(** What a consumer of [get_data] can rely on: the six measurements are
    floats, [SID] is an int, and there is no other key. *)
Definition typed_entry (k : string) (v : pyval) : Prop :=
  (k ∈ ["Latitude"; "Longitude"; "Yaw"; "Pitch"; "Roll"; "Heading"]%string
   /\ exists x, v = VFloat x)
  \/ (k = "SID"%string /\ exists z, v = VInt z).

(** ** The calendar, day by day *)

Definition is_leap (y : Z) : bool :=
  (y mod 4 =? 0) && (negb (y mod 100 =? 0) || (y mod 400 =? 0)).

Definition days_in_month (y m : Z) : Z :=
  if m =? 2 then (if is_leap y then 29 else 28)
  else if (m =? 4) || (m =? 6) || (m =? 9) || (m =? 11) then 30
  else 31.

(** The day after a (year, month, day) date of the Gregorian calendar. *)
Definition next_day (t : Z * Z * Z) : Z * Z * Z :=
  let '(y, m, d) := t in
  if d <? days_in_month y m then (y, m, d + 1)
  else if m <? 12 then (y, m + 1, 1)
  else (y + 1, 1, 1).

(** The keys the branch of a PGN can assign. *)
Definition frame_keys (pgn : Z) : list string :=
  if pgn =? 129025 then ["Latitude"; "Longitude"]%string
  else if pgn =? 129026 then ["SID"]%string
  else if pgn =? 127257 then ["Yaw"; "Pitch"; "Roll"]%string
  else if pgn =? 127250 then ["Heading"]%string
  else [].

(** The assignments a line performs on [data_dict]: none if it does not
    parse. *)
Definition line_writes (message : string) : list (string * pyval) :=
  match parse_frame message with
  | Normal fr => frame_writes (get_pgn_from_message (msgid fr)) (int_data_bytes fr)
  | Raised _ => []
  end.

(** The date computation of [gmtime] on a whole number of days. *)
Definition civil_from_days (days : Z) : Z * Z * Z :=
  let z := days + 719468 in
  let era := z / 146097 in
  let doe := z - era * 146097 in
  let yoe := (doe - doe / 1460 + doe / 36524 - doe / 146096) / 365 in
  let doy := doe - (365 * yoe + yoe / 4 - yoe / 100) in
  let mp := (5 * doy + 2) / 153 in
  let d := doy - (153 * mp + 2) / 5 + 1 in
  let m := if mp <? 10 then mp + 3 else mp - 9 in
  let y := yoe + era * 400 + (if m <=? 2 then 1 else 0) in
  (y, m, d).

Definition date_eqb (a b : Z * Z * Z) : bool :=
  let '(y, m, d) := a in
  let '(y', m', d') := b in
  (y =? y') && (m =? m') && (d =? d').

(** A date of the calendar between 1970 and 2149. *)
Definition date_ok (t : Z * Z * Z) : bool :=
  let '(y, m, d) := t in
  (1970 <=? y) && (y <=? 2149) && (1 <=? m) && (m <=? 12)
  && (1 <=? d) && (d <=? days_in_month y m).

(** The [count] day counts from [n] on are computed as the dates
    [date], [next_day date], ..., all of them dates of the calendar. *)
Fixpoint follows (count : nat) (n : Z) (date : Z * Z * Z) : bool :=
  match count with
  | O => true
  | S count' =>
      date_eqb (civil_from_days n) date && date_ok date
      && follows count' (n + 1) (next_day date)
  end.

(** [f] holds of the [count] integers from [n] on. *)
Fixpoint holds_from (f : Z -> bool) (count : nat) (n : Z) : bool :=
  match count with
  | O => true
  | S count' => f n && holds_from f count' (n + 1)
  end.

Definition prints_in (width : nat) (n : Z) : bool :=
  Nat.eqb (String.length (zfill width (decimal n))) width.

(** A payload token of the documented line format: one or two
    hexadecimal digits. *)
Definition is_hex_digit (c : ascii) : bool :=
  match digit_value c with
  | Some _ => true
  | None => false
  end.

Definition byte_token (tok : string) : bool :=
  match tok with
  | String c1 EmptyString => is_hex_digit c1
  | String c1 (String c2 EmptyString) => is_hex_digit c1 && is_hex_digit c2
  | _ => false
  end.

Definition parses_to_byte (tok : string) : bool :=
  match py_int16 tok with
  | Some z => is_byte z
  | None => false
  end.

Definition byte_token_ok (c1 c2 : ascii) : bool :=
  implb (is_hex_digit c1) (parses_to_byte (String c1 EmptyString))
  && implb (is_hex_digit c1 && is_hex_digit c2)
       (parses_to_byte (String c1 (String c2 EmptyString))).

Definition all_ascii : list ascii := map ascii_of_nat (seq 0 256).

(** * Properties *)

(** ** PGN derivation *)

Lemma get_pgn_from_message_div (msgid : Z) :
  get_pgn_from_message msgid = (msgid / 2 ^ 8) mod 2 ^ 18.
Proof.
  unfold get_pgn_from_message.
  rewrite Z.shiftr_div_pow2 by lia.
  change 0x3FFFF with (Z.ones 18).
  rewrite Z.land_ones by lia.
  reflexivity.
Qed.

Lemma get_pgn_from_message_bits (msgid i : Z) :
  0 <= i ->
  Z.testbit (get_pgn_from_message msgid) i = (i <? 18) && Z.testbit msgid (i + 8).
Proof.
  intros Hi. unfold get_pgn_from_message.
  rewrite Z.land_spec, Z.shiftr_spec by exact Hi.
  change 0x3FFFF with (Z.ones 18).
  rewrite Z.testbit_ones_nonneg by lia.
  apply andb_comm.
Qed.

(** C8.  For every unsigned 32-bit message id the derived PGN is
    [(msgid >> 8) & 0x3FFFF], that is bits 8..25 of the id and no other
    bit; it lies in [0, 2^18); and equal ids give equal PGNs. *)
Theorem pgn_derivation (msgid : Z) :
  0 <= msgid < 2 ^ 32 ->
  get_pgn_from_message msgid = Z.land (Z.shiftr msgid 8) 0x3FFFF
  /\ get_pgn_from_message msgid = (msgid / 256) mod 262144
  /\ (forall i, 0 <= i ->
        Z.testbit (get_pgn_from_message msgid) i = (i <? 18) && Z.testbit msgid (i + 8))
  /\ 0 <= get_pgn_from_message msgid < 2 ^ 18
  /\ (forall msgid', msgid' = msgid ->
        get_pgn_from_message msgid' = get_pgn_from_message msgid).
Proof.
  intros _.
  split; [reflexivity|].
  split; [apply get_pgn_from_message_div|].
  split; [apply get_pgn_from_message_bits|].
  split.
  - rewrite get_pgn_from_message_div. apply Z.mod_pos_bound. lia.
  - intros ? ->. reflexivity.
Qed.

Lemma pgn_derivation_witness :
  0 <= 0x09F80100 < 2 ^ 32 /\ get_pgn_from_message 0x09F80100 = 129025.
Proof.
  split; [lia|].
  destruct (pgn_derivation 0x09F80100 ltac:(lia)) as (_ & -> & _).
  reflexivity.
Defined.

(** ** Auxiliary facts about the built-ins *)

Lemma py_bytes_ok (data : list Z) :
  forallb is_byte data = true -> py_bytes data = Normal data.
Proof. unfold py_bytes. intros ->. reflexivity. Qed.

Lemma is_byte_range (b : Z) : is_byte b = true <-> 0 <= b < 256.
Proof. unfold is_byte. rewrite andb_true_iff, Z.leb_le, Z.ltb_lt. reflexivity. Qed.

(** [to_signed w] picks the representative of [u] modulo [2^w] that lies
    in the signed range. *)
Lemma to_signed_spec (w u : Z) :
  0 < w -> 0 <= u < 2 ^ w ->
  - 2 ^ (w - 1) <= to_signed w u < 2 ^ (w - 1)
  /\ (to_signed w u) mod 2 ^ w = u.
Proof.
  intros Hw Hu. unfold to_signed.
  assert (Hp : 2 ^ w = 2 * 2 ^ (w - 1)).
  { rewrite <- Z.pow_succ_r by lia. f_equal. lia. }
  destruct (Z.ltb_spec u (2 ^ (w - 1))).
  - split; [lia|]. apply Z.mod_small. lia.
  - split; [lia|].
    replace (u - 2 ^ w) with (u + (-1) * 2 ^ w) by lia.
    rewrite Z.mod_add by lia. apply Z.mod_small. lia.
Qed.

Lemma le_uint_2 (b0 b1 : Z) : le_uint [b0; b1] = b0 + 256 * b1.
Proof. unfold le_uint. simpl. lia. Qed.

Lemma le_uint_4 (b0 b1 b2 b3 : Z) :
  le_uint [b0; b1; b2; b3] = b0 + 256 * b1 + 65536 * b2 + 16777216 * b3.
Proof. unfold le_uint. simpl. lia. Qed.

Lemma le_uint_2_range (b0 b1 : Z) :
  forallb is_byte [b0; b1] = true -> 0 <= le_uint [b0; b1] < 2 ^ 16.
Proof.
  rewrite le_uint_2. cbn [forallb].
  rewrite !andb_true_iff, !is_byte_range. intros (? & ? & _). lia.
Qed.

Lemma le_uint_4_range (b0 b1 b2 b3 : Z) :
  forallb is_byte [b0; b1; b2; b3] = true -> 0 <= le_uint [b0; b1; b2; b3] < 2 ^ 32.
Proof.
  rewrite le_uint_4. cbn [forallb].
  rewrite !andb_true_iff, !is_byte_range. intros (? & ? & ? & ? & _). lia.
Qed.

(** ** Entries of the dispatch table *)

Lemma decoder_Latitude : field_decoders !! "Latitude"%string = Some decode_latitude_i32_field.
Proof. reflexivity. Qed.
Lemma decoder_Longitude : field_decoders !! "Longitude"%string = Some decode_longitude_i32_field.
Proof. reflexivity. Qed.
Lemma decoder_SID : field_decoders !! "SID"%string = Some decode_uint8_field.
Proof. reflexivity. Qed.
Lemma decoder_Yaw : field_decoders !! "Yaw"%string = Some decode_angle_i16_field.
Proof. reflexivity. Qed.
Lemma decoder_Pitch : field_decoders !! "Pitch"%string = Some decode_angle_i16_field.
Proof. reflexivity. Qed.
Lemma decoder_Roll : field_decoders !! "Roll"%string = Some decode_angle_i16_field.
Proof. reflexivity. Qed.
Lemma decoder_Heading : field_decoders !! "Heading"%string = Some decode_angle_u16_field.
Proof. reflexivity. Qed.
Lemma decoder_COG_Reference : field_decoders !! "COG Reference"%string = None.
Proof. reflexivity. Qed.
Lemma decoder_COG : field_decoders !! "COG"%string = None.
Proof. reflexivity. Qed.
Lemma decoder_SOG : field_decoders !! "SOG"%string = None.
Proof. reflexivity. Qed.

(** ** The decoders on slices of the right length *)

Lemma decode_i32_bytes (b0 b1 b2 b3 : Z) :
  forallb is_byte [b0; b1; b2; b3] = true ->
  decode_latitude_i32_field [b0; b1; b2; b3]
    = ([], Normal (VFloat (Z2float (to_signed 32 (le_uint [b0; b1; b2; b3])) * 1e-7)))
  /\ decode_longitude_i32_field [b0; b1; b2; b3]
    = ([], Normal (VFloat (Z2float (to_signed 32 (le_uint [b0; b1; b2; b3])) * 1e-7))).
Proof.
  intros Hb.
  unfold decode_latitude_i32_field, decode_longitude_i32_field, silent.
  change (take 4 [b0; b1; b2; b3]) with [b0; b1; b2; b3].
  rewrite (py_bytes_ok _ Hb). split; reflexivity.
Qed.

Lemma decode_angle_i16_bytes (b0 b1 : Z) :
  forallb is_byte [b0; b1] = true ->
  decode_angle_i16_field [b0; b1]
    = ([], Normal (VFloat (Z2float (to_signed 16 (le_uint [b0; b1])) * 1e-4))).
Proof.
  intros Hb. unfold decode_angle_i16_field, silent.
  change (negb (Nat.eqb (List.length [b0; b1]) 2)) with false. cbv iota.
  rewrite (py_bytes_ok _ Hb). reflexivity.
Qed.

Lemma decode_angle_u16_bytes (b0 b1 : Z) :
  forallb is_byte [b0; b1] = true ->
  decode_angle_u16_field [b0; b1]
    = ([], Normal (VFloat (Z2float (le_uint [b0; b1]) * 1e-4))).
Proof.
  intros Hb. unfold decode_angle_u16_field, silent.
  rewrite (py_bytes_ok _ Hb). reflexivity.
Qed.

Lemma decode_angle_i16_guard (data : list Z) :
  List.length data <> 2%nat ->
  decode_angle_i16_field data = ([WarnInsufficientData (List.length data)], Normal VNone).
Proof.
  intros Hlen. unfold decode_angle_i16_field.
  destruct (Nat.eqb_spec (List.length data) 2); [contradiction|reflexivity].
Qed.

(** ** Symbolic execution of the loop bodies *)

Lemma try_store_normal (k : string) (data : list Z) (out : list diagnostic)
    (v : pyval) (self : Furuno) :
  try_store k data (out, Normal v) self = setitem k v (print_all out self).
Proof. reflexivity. Qed.

Lemma try_store_raised (k : string) (data : list Z) (out : list diagnostic)
    (e : exn) (self : Furuno) :
  try_store k data (out, Raised e) self
    = print (CouldNotDecode k e data) (print_all out self).
Proof. reflexivity. Qed.

Lemma print_all_nil (self : Furuno) : print_all [] self = self.
Proof. destruct self. unfold print_all. simpl. rewrite app_nil_r. reflexivity. Qed.

Lemma step_gps_skip (bytes : list Z) (start : nat) (self : Furuno) (f : field) :
  field_decoders !! field_name f = None ->
  step_gps bytes (start, self) f = (start, self).
Proof. intros H. unfold step_gps. rewrite H. reflexivity. Qed.

Lemma step_gps_sid (bytes : list Z) (start : nat) (self : Furuno) (len : nat) :
  step_gps bytes (start, self) (Field "SID" len) = ((start + len)%nat, self).
Proof. unfold step_gps. cbn [field_name]. rewrite decoder_SID. reflexivity. Qed.

Lemma step_gps_store (bytes : list Z) (start : nat) (self : Furuno)
    (n : string) (len : nat) (d : decoder) :
  field_decoders !! n = Some d ->
  String.eqb n "SID" = false ->
  step_gps bytes (start, self) (Field n len)
    = ((start + len)%nat,
       try_store n (slice bytes start len) (d (slice bytes start len)) self).
Proof.
  intros H Hn. unfold step_gps. cbn [field_name field_length].
  rewrite H, Hn. reflexivity.
Qed.

Lemma step_cog_sog_skip (bytes : list Z) (start : nat) (self : Furuno) (f : field) :
  field_decoders !! field_name f = None ->
  step_cog_sog bytes (start, self) f = (start, self).
Proof. intros H. unfold step_cog_sog. rewrite H. reflexivity. Qed.

Lemma step_cog_sog_store (bytes : list Z) (start : nat) (self : Furuno)
    (n : string) (len : nat) (d : decoder) :
  field_decoders !! n = Some d ->
  step_cog_sog bytes (start, self) (Field n len)
    = ((start + len)%nat,
       try_store n (slice bytes start len) (d (slice bytes start len)) self).
Proof.
  intros H. unfold step_cog_sog. cbn [field_name field_length].
  rewrite H. reflexivity.
Qed.

Lemma step_degrees_skip (bytes : list Z) (start : nat) (self : Furuno) (f : field) :
  field_decoders !! field_name f = None ->
  step_degrees bytes (start, self) f = (start, self).
Proof. intros H. unfold step_degrees. rewrite H. reflexivity. Qed.

Lemma step_degrees_sid (bytes : list Z) (start : nat) (self : Furuno) (len : nat) :
  step_degrees bytes (start, self) (Field "SID" len) = ((start + len)%nat, self).
Proof. unfold step_degrees. cbn [field_name]. rewrite decoder_SID. reflexivity. Qed.

Lemma step_degrees_store (bytes : list Z) (start : nat) (self : Furuno)
    (n : string) (len : nat) (d : decoder) :
  field_decoders !! n = Some d ->
  String.eqb n "SID" = false ->
  step_degrees bytes (start, self) (Field n len)
    = ((start + len)%nat,
       try_store n (slice bytes start len)
         ((d (slice bytes start len)).1, (d (slice bytes start len)).2 ≫= to_degrees)
         self).
Proof.
  intros H Hn. unfold step_degrees. cbn [field_name field_length].
  rewrite H, Hn. reflexivity.
Qed.

Lemma parse_raw_message_frame (message : string) (fr : RawFrame) (self : Furuno) :
  parse_frame message = Normal fr ->
  parse_raw_message message self = (Normal tt, decode_frame message fr self).
Proof. intros H. unfold parse_raw_message. rewrite H. reflexivity. Qed.

(** ** Position, Rapid Update (PGN 129025) *)

Lemma forallb_is_byte_app (l1 l2 : list Z) :
  forallb is_byte (l1 ++ l2) = true ->
  forallb is_byte l1 = true /\ forallb is_byte l2 = true.
Proof. rewrite forallb_app, andb_true_iff. tauto. Qed.

(** C2.  A PGN-129025 line with exactly eight payload bytes stores
    [Latitude] and [Longitude], each the little-endian two's-complement
    32-bit integer of its four bytes (bytes 0-3, bytes 4-7) converted to
    float and multiplied by the float [1e-7], and nothing else happens: no
    other key is touched, nothing is printed, no further operation is
    applied to the product. *)
Theorem position_frame_decodes (message : string) (fr : RawFrame) (self : Furuno)
    (b0 b1 b2 b3 b4 b5 b6 b7 : Z) :
  parse_frame message = Normal fr ->
  get_pgn_from_message (msgid fr) = 129025 ->
  int_data_bytes fr = [b0; b1; b2; b3; b4; b5; b6; b7] ->
  forallb is_byte [b0; b1; b2; b3; b4; b5; b6; b7] = true ->
  let lat := to_signed 32 (b0 + 256 * b1 + 65536 * b2 + 16777216 * b3) in
  let lon := to_signed 32 (b4 + 256 * b5 + 65536 * b6 + 16777216 * b7) in
  let self' := (parse_raw_message message self).2 in
  parse_raw_message message self
    = (Normal tt,
       MkFuruno
         (<["Longitude"%string := VFloat (Z2float lon * 1e-7)]>
            (<["Latitude"%string := VFloat (Z2float lat * 1e-7)]> (data_dict self)))
         (stdout self))
  /\ get_data self' !! "Latitude"%string = Some (VFloat (Z2float lat * 1e-7))
  /\ get_data self' !! "Longitude"%string = Some (VFloat (Z2float lon * 1e-7))
  /\ (- 2 ^ 31 <= lat < 2 ^ 31
      /\ lat mod 2 ^ 32 = b0 + 256 * b1 + 65536 * b2 + 16777216 * b3)
  /\ (- 2 ^ 31 <= lon < 2 ^ 31
      /\ lon mod 2 ^ 32 = b4 + 256 * b5 + 65536 * b6 + 16777216 * b7).
Proof.
  intros Hparse Hpgn Hbytes Hb lat lon self'.
  destruct (forallb_is_byte_app [b0; b1; b2; b3] [b4; b5; b6; b7] Hb) as [Hlat Hlon].
  assert (Hrun : parse_raw_message message self
    = (Normal tt,
       MkFuruno
         (<["Longitude"%string := VFloat (Z2float lon * 1e-7)]>
            (<["Latitude"%string := VFloat (Z2float lat * 1e-7)]> (data_dict self)))
         (stdout self))).
  { rewrite (parse_raw_message_frame _ _ _ Hparse).
    unfold decode_frame. rewrite Hpgn, Hbytes.
    change (129025 =? 129025) with true. cbv iota.
    unfold walk_gps, field_list_gps.
    change (List.length _ <? _)%nat with false. cbv iota. cbn [fold_left].
    rewrite (step_gps_store _ _ _ _ _ _ decoder_Latitude eq_refl).
    rewrite (step_gps_store _ _ _ _ _ _ decoder_Longitude eq_refl).
    change (slice [b0; b1; b2; b3; b4; b5; b6; b7] 0 4) with [b0; b1; b2; b3].
    change (slice [b0; b1; b2; b3; b4; b5; b6; b7] (0 + 4) 4) with [b4; b5; b6; b7].
    rewrite (proj1 (decode_i32_bytes _ _ _ _ Hlat)).
    rewrite (proj2 (decode_i32_bytes _ _ _ _ Hlon)).
    rewrite !try_store_normal, !print_all_nil, !le_uint_4.
    reflexivity. }
  split; [exact Hrun|].
  subst self'. rewrite Hrun. unfold get_data. cbn [snd data_dict].
  split; [|split].
  - rewrite lookup_insert_ne by discriminate. apply lookup_insert_eq.
  - apply lookup_insert_eq.
  - pose proof (le_uint_4_range _ _ _ _ Hlat) as R1.
    pose proof (le_uint_4_range _ _ _ _ Hlon) as R2.
    rewrite le_uint_4 in R1, R2.
    split; apply (to_signed_spec 32); first [lia | assumption].
Qed.

Lemma position_frame_decodes_witness :
  get_data (parse_raw_message "12:00:00.0 R 09F80100 00 2A 5B 1C 80 96 98 00"
              init).2
    = {[ "Latitude"%string := VFloat 47.573657599999997;
         "Longitude"%string := VFloat 1 ]}.
Proof.
  destruct (position_frame_decodes
              "12:00:00.0 R 09F80100 00 2A 5B 1C 80 96 98 00"
              (MkRawFrame "12:00:00.0" "R" 0x09F80100
                 [0x00; 0x2A; 0x5B; 0x1C; 0x80; 0x96; 0x98; 0x00])
              init
              0x00 0x2A 0x5B 0x1C 0x80 0x96 0x98 0x00
              eq_refl eq_refl eq_refl eq_refl) as [-> _].
  vm_compute. reflexivity.
Defined.

(** ** Unknown PGNs *)

(** C7.  A line that parses and whose PGN is none of 129025, 129026,
    127257, 127250 is a silent no-op: [parse_raw_message] returns normally
    and the object (dictionary and output alike) is what it was. *)
Theorem unknown_pgn_is_noop (message : string) (fr : RawFrame) (self : Furuno) :
  parse_frame message = Normal fr ->
  get_pgn_from_message (msgid fr) <> 129025 ->
  get_pgn_from_message (msgid fr) <> 129026 ->
  get_pgn_from_message (msgid fr) <> 127257 ->
  get_pgn_from_message (msgid fr) <> 127250 ->
  parse_raw_message message self = (Normal tt, self)
  /\ get_data (parse_raw_message message self).2 = get_data self
  /\ stdout (parse_raw_message message self).2 = stdout self.
Proof.
  intros Hparse H1 H2 H3 H4.
  assert (Hrun : parse_raw_message message self = (Normal tt, self)).
  { rewrite (parse_raw_message_frame _ _ _ Hparse). unfold decode_frame.
    repeat match goal with
           | |- context [?a =? ?b] => destruct (Z.eqb_spec a b); [contradiction|]
           end.
    reflexivity. }
  rewrite Hrun. auto.
Qed.

Lemma unknown_pgn_is_noop_witness :
  parse_raw_message "12:00:00.0 R 09F80500 01 02 03 04 05 06 07 08"
    (MkFuruno {[ "Heading"%string := VFloat 90 ]} [])
  = (Normal tt, MkFuruno {[ "Heading"%string := VFloat 90 ]} []).
Proof.
  apply (unknown_pgn_is_noop
           "12:00:00.0 R 09F80500 01 02 03 04 05 06 07 08"
           (MkRawFrame "12:00:00.0" "R" 0x09F80500 [1; 2; 3; 4; 5; 6; 7; 8])
           (MkFuruno {[ "Heading"%string := VFloat 90 ]} [])).
  - reflexivity.
  - vm_compute. discriminate.
  - vm_compute. discriminate.
  - vm_compute. discriminate.
  - vm_compute. discriminate.
Defined.

(** ** Attitude (PGN 127257) and Heading (PGN 127250) *)

Lemma data_dict_print (d : diagnostic) (self : Furuno) :
  data_dict (print d self) = data_dict self.
Proof. reflexivity. Qed.

Lemma data_dict_print_all (ds : list diagnostic) (self : Furuno) :
  data_dict (print_all ds self) = data_dict self.
Proof. reflexivity. Qed.

Lemma data_dict_setitem (k : string) (v : pyval) (self : Furuno) :
  data_dict (setitem k v self) = <[k := v]> (data_dict self).
Proof. reflexivity. Qed.

Lemma data_dict_warn (c : bool) (d : diagnostic) (self : Furuno) :
  data_dict (if c then print d self else self) = data_dict self.
Proof. destruct c; reflexivity. Qed.

(** C5.  A PGN-127257 line truncated to three payload ints: [SID] is
    passed over, [Yaw] is decoded from payload items 1 and 2 and stored
    (in degrees), [Pitch] and [Roll] see an empty slice, are not stored and
    keep whatever value they had, the length warning and one diagnostic per
    failed field are printed, the call returns normally, and the local
    offset has advanced over all four fields: it ends at 1 + 2 + 2 + 2. *)
Theorem truncated_attitude_frame (message : string) (fr : RawFrame) (self : Furuno)
    (b0 b1 b2 : Z) :
  parse_frame message = Normal fr ->
  get_pgn_from_message (msgid fr) = 127257 ->
  int_data_bytes fr = [b0; b1; b2] ->
  forallb is_byte [b1; b2] = true ->
  let yaw := VFloat (180 * (Z2float (to_signed 16 (b1 + 256 * b2)) * 1e-4) / np_pi) in
  let self' :=
    MkFuruno (<["Yaw"%string := yaw]> (data_dict self))
      (stdout self ++
         [ WarnMessageLength 3 7 message;
           WarnInsufficientData 0; CouldNotDecode "Pitch" TypeError [];
           WarnInsufficientData 0; CouldNotDecode "Roll" TypeError [] ]) in
  walk_attitude message [b0; b1; b2] self = (7%nat, self')
  /\ expected_byte_count field_list_attitude = 7%nat
  /\ parse_raw_message message self = (Normal tt, self')
  /\ get_data self' !! "Yaw"%string = Some yaw
  /\ get_data self' !! "Pitch"%string = get_data self !! "Pitch"%string
  /\ get_data self' !! "Roll"%string = get_data self !! "Roll"%string
  /\ get_data self' !! "SID"%string = get_data self !! "SID"%string.
Proof.
  intros Hparse Hpgn Hbytes Hb yaw self'.
  assert (Hwalk : walk_attitude message [b0; b1; b2] self = (7%nat, self')).
  { unfold walk_attitude, field_list_attitude.
    change (List.length _ <? _)%nat with true. cbv iota. cbn [fold_left].
    rewrite step_degrees_sid.
    rewrite (step_degrees_store _ _ _ _ _ _ decoder_Yaw eq_refl).
    rewrite (step_degrees_store _ _ _ _ _ _ decoder_Pitch eq_refl).
    rewrite (step_degrees_store _ _ _ _ _ _ decoder_Roll eq_refl).
    change (slice [b0; b1; b2] (0 + 1) 2) with [b1; b2].
    change (slice [b0; b1; b2] (0 + 1 + 2) 2) with (@nil Z).
    change (slice [b0; b1; b2] (0 + 1 + 2 + 2) 2) with (@nil Z).
    rewrite (decode_angle_i16_bytes _ _ Hb), le_uint_2.
    rewrite (decode_angle_i16_guard []) by discriminate.
    cbn [fst snd mbind completion_bind to_degrees List.length].
    rewrite !try_store_normal, !try_store_raised, print_all_nil.
    unfold self', setitem, print, print_all. cbn [data_dict stdout].
    rewrite <- !app_assoc. reflexivity. }
  split; [exact Hwalk|]. split; [reflexivity|]. split.
  - rewrite (parse_raw_message_frame _ _ _ Hparse). unfold decode_frame.
    rewrite Hpgn, Hbytes. change (127257 =? 129025) with false.
    change (127257 =? 129026) with false. change (127257 =? 127257) with true.
    cbv iota. rewrite Hwalk. reflexivity.
  - unfold get_data, self'. cbn [data_dict].
    split; [apply lookup_insert_eq|].
    repeat split; apply lookup_insert_ne; discriminate.
Qed.

Lemma truncated_attitude_frame_witness :
  parse_raw_message "12:00:00.0 R 09F11900 01 02 03"
    (MkFuruno {[ "Pitch"%string := VFloat 1.5 ]} [])
  = (Normal tt,
     MkFuruno {[ "Pitch"%string := VFloat 1.5;
                 "Yaw"%string := VFloat 4.4117750225073387 ]}
       [ WarnMessageLength 3 7 "12:00:00.0 R 09F11900 01 02 03";
         WarnInsufficientData 0; CouldNotDecode "Pitch" TypeError [];
         WarnInsufficientData 0; CouldNotDecode "Roll" TypeError [] ]).
Proof.
  destruct (truncated_attitude_frame
              "12:00:00.0 R 09F11900 01 02 03"
              (MkRawFrame "12:00:00.0" "R" 0x09F11900 [1; 2; 3])
              (MkFuruno {[ "Pitch"%string := VFloat 1.5 ]} [])
              1 2 3 eq_refl eq_refl eq_refl eq_refl) as (_ & _ & -> & _).
  vm_compute. reflexivity.
Defined.

(** ** The conversion to degrees *)

Lemma data_dict_try_store (k : string) (data : list Z)
    (r : list diagnostic * completion pyval) (self : Furuno) :
  data_dict (try_store k data r self) = store_unconverted r.2 k (data_dict self).
Proof. destruct r as [out [v|e]]; reflexivity. Qed.

Lemma data_dict_try_store_degrees (k : string) (data : list Z)
    (r : list diagnostic * completion pyval) (self : Furuno) :
  (forall v, r.2 = Normal v -> v = VNone \/ exists x, v = VFloat x) ->
  data_dict (try_store k data (r.1, r.2 ≫= to_degrees) self)
    = store_converted r.2 k (data_dict self).
Proof.
  destruct r as [out [v|e]]; cbn [fst snd]; intros H; [|reflexivity].
  destruct (H v eq_refl) as [->|[x ->]]; reflexivity.
Qed.

(** The two angle decoders return a float, or [None] (the signed one), or
    raise. *)
Lemma angle_i16_result (data : list Z) (v : pyval) :
  (decode_angle_i16_field data).2 = Normal v -> v = VNone \/ exists x, v = VFloat x.
Proof.
  unfold decode_angle_i16_field, silent.
  destruct (negb (Nat.eqb (List.length data) 2)); cbn [snd].
  - intros [= <-]. auto.
  - destruct (py_bytes data) as [b|]; [|discriminate]. cbn [mbind completion_bind].
    destruct (unpack_h b); [|discriminate]. intros [= <-]. eauto.
Qed.

Lemma angle_u16_result (data : list Z) (v : pyval) :
  (decode_angle_u16_field data).2 = Normal v -> v = VNone \/ exists x, v = VFloat x.
Proof.
  unfold decode_angle_u16_field, silent. cbn [snd].
  destruct (py_bytes data) as [b|]; [|discriminate]. cbn [mbind completion_bind].
  destruct (unpack_H b); [|discriminate]. intros [= <-]. eauto.
Qed.

Lemma walk_attitude_dict (message : string) (bytes : list Z) (self : Furuno) :
  data_dict (walk_attitude message bytes self).2
    = store_converted (decode_angle_i16_field (slice bytes 5 2)).2 "Roll"
        (store_converted (decode_angle_i16_field (slice bytes 3 2)).2 "Pitch"
           (store_converted (decode_angle_i16_field (slice bytes 1 2)).2 "Yaw"
              (data_dict self))).
Proof.
  unfold walk_attitude, field_list_attitude. cbn [fold_left].
  rewrite step_degrees_sid.
  rewrite (step_degrees_store _ _ _ _ _ _ decoder_Yaw eq_refl).
  rewrite (step_degrees_store _ _ _ _ _ _ decoder_Pitch eq_refl).
  rewrite (step_degrees_store _ _ _ _ _ _ decoder_Roll eq_refl).
  cbn [snd Nat.add].
  rewrite !data_dict_try_store_degrees by apply angle_i16_result.
  rewrite data_dict_warn. reflexivity.
Qed.

Lemma walk_heading_dict (message : string) (bytes : list Z) (self : Furuno) :
  data_dict (walk_heading message bytes self).2
    = store_converted (decode_angle_u16_field (slice bytes 1 2)).2 "Heading"
        (data_dict self).
Proof.
  unfold walk_heading, field_list_heading. cbn [fold_left].
  rewrite step_degrees_sid.
  rewrite (step_degrees_store _ _ _ _ _ _ decoder_Heading eq_refl).
  cbn [snd Nat.add].
  rewrite data_dict_try_store_degrees by apply angle_u16_result.
  rewrite data_dict_warn. reflexivity.
Qed.

Lemma walk_gps_dict (message : string) (bytes : list Z) (self : Furuno) :
  data_dict (walk_gps message bytes self).2
    = store_unconverted (decode_longitude_i32_field (slice bytes 4 4)).2 "Longitude"
        (store_unconverted (decode_latitude_i32_field (slice bytes 0 4)).2 "Latitude"
           (data_dict self)).
Proof.
  unfold walk_gps, field_list_gps. cbn [fold_left].
  rewrite (step_gps_store _ _ _ _ _ _ decoder_Latitude eq_refl).
  rewrite (step_gps_store _ _ _ _ _ _ decoder_Longitude eq_refl).
  cbn [snd Nat.add].
  rewrite !data_dict_try_store, data_dict_warn. reflexivity.
Qed.

Lemma walk_cog_sog_eq (message : string) (bytes : list Z) (self : Furuno) :
  walk_cog_sog message bytes self
    = (1%nat,
       try_store "SID" (slice bytes 0 1) (decode_uint8_field (slice bytes 0 1))
         (if (List.length bytes <? 6)%nat
          then print (WarnIncomplete 6 (List.length bytes) message) self
          else self)).
Proof.
  unfold walk_cog_sog, field_list_cog_sog. cbn [fold_left].
  rewrite (step_cog_sog_store _ _ _ _ _ _ decoder_SID).
  rewrite (step_cog_sog_skip _ _ _ (Field "COG Reference" 1) decoder_COG_Reference).
  rewrite (step_cog_sog_skip _ _ _ (Field "COG" 2) decoder_COG).
  rewrite (step_cog_sog_skip _ _ _ (Field "SOG" 2) decoder_SOG).
  reflexivity.
Qed.

Lemma walk_cog_sog_dict (message : string) (bytes : list Z) (self : Furuno) :
  data_dict (walk_cog_sog message bytes self).2
    = store_unconverted (decode_uint8_field (slice bytes 0 1)).2 "SID" (data_dict self).
Proof.
  rewrite walk_cog_sog_eq. cbn [snd].
  rewrite data_dict_try_store, data_dict_warn. reflexivity.
Qed.

(** C3.  For every line that parses, the dictionary after
    [parse_raw_message] is determined PGN by PGN as follows.  For PGN
    127257 and PGN 127250 every field whose decoder returns a float [x] is
    stored as [180 * x / np.pi] (the product by 180 first, then the
    division, in binary64), and a field whose decoder fails is not stored.
    For PGN 129025 and PGN 129026 the decoder's result is stored as it is,
    and for any other PGN nothing is stored: the conversion is applied for
    no other PGN.  In particular the payload [00 00 10] of a PGN-127250
    line stores [Heading = (0x1000 * 1e-4) * 180 / pi]. *)
Theorem degrees_only_for_attitude_and_heading (message : string) (fr : RawFrame)
    (self : Furuno) :
  parse_frame message = Normal fr ->
  let pgn := get_pgn_from_message (msgid fr) in
  let bytes := int_data_bytes fr in
  let dd := data_dict self in
  let dd' := get_data (parse_raw_message message self).2 in
  (pgn = 127257 ->
     dd' = store_converted (decode_angle_i16_field (slice bytes 5 2)).2 "Roll"
             (store_converted (decode_angle_i16_field (slice bytes 3 2)).2 "Pitch"
                (store_converted (decode_angle_i16_field (slice bytes 1 2)).2 "Yaw" dd)))
  /\ (pgn = 127250 ->
     dd' = store_converted (decode_angle_u16_field (slice bytes 1 2)).2 "Heading" dd)
  /\ (pgn = 129025 ->
     dd' = store_unconverted (decode_longitude_i32_field (slice bytes 4 4)).2 "Longitude"
             (store_unconverted (decode_latitude_i32_field (slice bytes 0 4)).2 "Latitude"
                dd))
  /\ (pgn = 129026 ->
     dd' = store_unconverted (decode_uint8_field (slice bytes 0 1)).2 "SID" dd)
  /\ (pgn <> 127257 -> pgn <> 127250 -> pgn <> 129025 -> pgn <> 129026 -> dd' = dd)
  /\ (pgn = 127250 -> bytes = [0x00; 0x00; 0x10] ->
     dd' = <["Heading"%string := VFloat (0x1000 * 1e-4 * 180 / np_pi)]> dd).
Proof.
  intros Hparse pgn bytes dd dd'.
  assert (Hdd : dd' = data_dict (decode_frame message fr self)).
  { subst dd'. rewrite (parse_raw_message_frame _ _ _ Hparse). reflexivity. }
  assert (H50 : pgn = 127250 ->
     dd' = store_converted (decode_angle_u16_field (slice bytes 1 2)).2 "Heading" dd).
  { intros E. rewrite Hdd. unfold decode_frame. fold pgn. rewrite E.
    change (127250 =? 129025) with false. change (127250 =? 129026) with false.
    change (127250 =? 127257) with false. change (127250 =? 127250) with true.
    cbv iota. apply walk_heading_dict. }
  repeat split.
  - intros E. rewrite Hdd. unfold decode_frame. fold pgn. rewrite E.
    change (127257 =? 129025) with false. change (127257 =? 129026) with false.
    change (127257 =? 127257) with true. cbv iota. apply walk_attitude_dict.
  - exact H50.
  - intros E. rewrite Hdd. unfold decode_frame. fold pgn. rewrite E.
    change (129025 =? 129025) with true. cbv iota. apply walk_gps_dict.
  - intros E. rewrite Hdd. unfold decode_frame. fold pgn. rewrite E.
    change (129026 =? 129025) with false. change (129026 =? 129026) with true.
    cbv iota. apply walk_cog_sog_dict.
  - intros N1 N2 N3 N4. rewrite Hdd. unfold decode_frame. fold pgn.
    repeat match goal with
           | |- context [?a =? ?b] => destruct (Z.eqb_spec a b); [contradiction|]
           end.
    reflexivity.
  - intros E Eb. rewrite (H50 E), Eb.
    change (slice [0x00; 0x00; 0x10] 1 2) with [0x00; 0x10].
    rewrite (decode_angle_u16_bytes 0x00 0x10 eq_refl).
    cbn [snd store_converted].
    apply (f_equal (fun x => <["Heading"%string := VFloat x]> dd)).
    vm_compute. reflexivity.
Qed.

Lemma degrees_only_for_attitude_and_heading_witness :
  get_data (parse_raw_message "12:00:00.0 R 09F11200 00 00 10" init).2
    = {[ "Heading"%string := VFloat 23.468351288558523 ]}.
Proof.
  destruct (degrees_only_for_attitude_and_heading
              "12:00:00.0 R 09F11200 00 00 10"
              (MkRawFrame "12:00:00.0" "R" 0x09F11200 [0x00; 0x00; 0x10])
              init eq_refl) as (_ & _ & _ & _ & _ & H).
  rewrite (H eq_refl eq_refl).
  vm_compute. reflexivity.
Defined.

(** ** COG & SOG, Rapid Update (PGN 129026) *)

(** The part of the picture that holds on every PGN-129026 line: [SID] is
    the only key that can be written, because [COG Reference], [COG] and
    [SOG] have no entry in [field_decoders]. *)
Lemma cog_sog_writes_only_SID (message : string) (fr : RawFrame) (self : Furuno)
    (k : string) :
  parse_frame message = Normal fr ->
  get_pgn_from_message (msgid fr) = 129026 ->
  k <> "SID"%string ->
  get_data (parse_raw_message message self).2 !! k = get_data self !! k.
Proof.
  intros Hparse Hpgn Hk.
  rewrite (parse_raw_message_frame _ _ _ Hparse). unfold decode_frame, get_data.
  rewrite Hpgn. change (129026 =? 129025) with false.
  change (129026 =? 129026) with true. cbv iota. cbn [snd].
  rewrite walk_cog_sog_dict. unfold store_unconverted.
  destruct (decode_uint8_field _).2; [|reflexivity].
  apply lookup_insert_ne. congruence.
Qed.

(** C4 (the code departs from the claim).  The line
    [12:00:00.0 R 09F80200 01 02 03 04 05 06] is a PGN-129026 frame with
    payload [01 02 03 04 05 06].  Its walk stores [SID = 1] and nothing
    else, but the local offset ends at 1, the length of [SID] alone, not
    at the declared total of 6: for [COG Reference], [COG] and [SOG] the
    loop body leaves through [continue] before it reaches
    [start += field_length], so their offsets do not advance.  The same
    holds for every payload. *)
Theorem cog_sog_offset_not_advanced :
  let line := "12:00:00.0 R 09F80200 01 02 03 04 05 06"%string in
  parse_frame line
    = Normal (MkRawFrame "12:00:00.0" "R" 0x09F80200 [1; 2; 3; 4; 5; 6])
  /\ get_pgn_from_message 0x09F80200 = 129026
  /\ (forall self,
        walk_cog_sog line [1; 2; 3; 4; 5; 6] self = (1%nat, setitem "SID" (VInt 1) self))
  /\ expected_byte_count field_list_cog_sog = 6%nat
  /\ (forall message bytes self, (walk_cog_sog message bytes self).1 = 1%nat)
  /\ (forall bytes start self f,
        In f [Field "COG Reference" 1; Field "COG" 2; Field "SOG" 2] ->
        (step_cog_sog bytes (start, self) f).1 = start).
Proof.
  intros line.
  split; [reflexivity|]. split; [reflexivity|].
  split; [|split; [reflexivity|split]].
  - intros self. rewrite walk_cog_sog_eq.
    change (slice [1; 2; 3; 4; 5; 6] 0 1) with [1].
    change (decode_uint8_field [1]) with (@nil diagnostic, Normal (VInt 1)).
    change (List.length [1; 2; 3; 4; 5; 6] <? 6)%nat with false. cbv iota.
    rewrite try_store_normal, print_all_nil. reflexivity.
  - intros message bytes self. rewrite walk_cog_sog_eq. reflexivity.
  - intros bytes start self f Hf. cbn [In] in Hf.
    destruct Hf as [<-|[<-|[<-|[]]]].
    + rewrite (step_cog_sog_skip _ _ _ (Field "COG Reference" 1) decoder_COG_Reference).
      reflexivity.
    + rewrite (step_cog_sog_skip _ _ _ (Field "COG" 2) decoder_COG). reflexivity.
    + rewrite (step_cog_sog_skip _ _ _ (Field "SOG" 2) decoder_SOG). reflexivity.
Qed.

(** ** The length guard of [decode_angle_i16_field] *)

Ltac run_binds :=
  repeat match goal with
         | |- context [@mbind completion _ _ _ _ ?c] =>
             destruct c; cbn [mbind completion_bind]
         end.

Ltac never_none d :=
  intros data; split; [reflexivity|];
  unfold d, silent; cbn [snd]; run_binds; discriminate.

Lemma uint8_never_none : quiet_and_never_none decode_uint8_field.
Proof. never_none decode_uint8_field. Qed.
Lemma date_never_none : quiet_and_never_none decode_date_field.
Proof. never_none decode_date_field. Qed.
Lemma time_never_none : quiet_and_never_none decode_time_field.
Proof. never_none decode_time_field. Qed.
Lemma longitude_never_none : quiet_and_never_none decode_longitude_i32_field.
Proof. never_none decode_longitude_i32_field. Qed.
Lemma latitude_never_none : quiet_and_never_none decode_latitude_i32_field.
Proof. never_none decode_latitude_i32_field. Qed.
Lemma company_never_none : quiet_and_never_none decode_company_field.
Proof. never_none decode_company_field. Qed.
Lemma angle_u16_never_none : quiet_and_never_none decode_angle_u16_field.
Proof. never_none decode_angle_u16_field. Qed.
Lemma lookup_never_none : quiet_and_never_none decode_lookup_field.
Proof. never_none decode_lookup_field. Qed.
Lemma speed_never_none : quiet_and_never_none decode_speed_u16_cm_field.
Proof. never_none decode_speed_u16_cm_field. Qed.
Lemma manufacturer_never_none : quiet_and_never_none decode_manufacturer_field.
Proof. never_none decode_manufacturer_field. Qed.
Lemma industry_never_none : quiet_and_never_none decode_industry_field.
Proof. never_none decode_industry_field. Qed.

Lemma field_decoders_guarded (k : string) (d : decoder) :
  field_decoders !! k = Some d ->
  d = decode_angle_i16_field \/ quiet_and_never_none d.
Proof.
  intros H. apply elem_of_list_to_map_2 in H.
  repeat (apply elem_of_cons in H as [[= -> ->] | H]);
    try (left; reflexivity);
    try (right;
         first [ exact uint8_never_none | exact date_never_none
               | exact time_never_none | exact longitude_never_none
               | exact latitude_never_none | exact angle_u16_never_none
               | exact lookup_never_none ]).
  apply elem_of_nil in H. contradiction.
Qed.

(** C6.  [decode_angle_i16_field] refuses any slice whose length is not
    exactly 2: it prints the insufficient-data warning and returns [None]
    instead of a value.  On exactly two bytes it returns their
    little-endian two's-complement 16-bit integer times the float [1e-4].
    No other decoder has such a guard: none of them ever prints the
    warning or returns [None], whatever it is given, be it one of the
    other entries of [field_decoders] or one of the decoders outside the
    table; [decode_angle_u16_field] on bytes of a wrong length fails
    only inside [struct.unpack].  In the attitude walk the [None] of the
    guard cannot be multiplied by 180: the field is reported as not
    decoded and nothing is stored for it. *)
Theorem angle_i16_is_the_only_guarded_decoder :
  (forall data, List.length data <> 2%nat ->
     decode_angle_i16_field data
       = ([WarnInsufficientData (List.length data)], Normal VNone))
  /\ (forall b0 b1, forallb is_byte [b0; b1] = true ->
        let raw_value := to_signed 16 (b0 + 256 * b1) in
        decode_angle_i16_field [b0; b1] = ([], Normal (VFloat (Z2float raw_value * 1e-4)))
        /\ - 2 ^ 15 <= raw_value < 2 ^ 15
        /\ raw_value mod 2 ^ 16 = b0 + 256 * b1)
  /\ Forall quiet_and_never_none
       [ decode_uint8_field; decode_date_field; decode_time_field;
         decode_longitude_i32_field; decode_latitude_i32_field;
         decode_company_field; decode_angle_u16_field; decode_lookup_field;
         decode_speed_u16_cm_field; decode_manufacturer_field;
         decode_industry_field ]
  /\ (forall k d, field_decoders !! k = Some d ->
        d = decode_angle_i16_field \/ quiet_and_never_none d)
  /\ (forall data, forallb is_byte data = true -> List.length data <> 2%nat ->
        decode_angle_u16_field data = ([], Raised StructError))
  /\ (forall bytes start self n,
        In n ["Yaw"; "Pitch"; "Roll"]%string ->
        List.length (slice bytes start 2) <> 2%nat ->
        step_degrees bytes (start, self) (Field n 2)
          = ((start + 2)%nat,
             print (CouldNotDecode n TypeError (slice bytes start 2))
               (print (WarnInsufficientData (List.length (slice bytes start 2))) self))).
Proof.
  split; [exact decode_angle_i16_guard|]. split; [|split; [|split; [|split]]].
  - intros b0 b1 Hb raw_value. split.
    + rewrite (decode_angle_i16_bytes _ _ Hb), le_uint_2. reflexivity.
    + pose proof (le_uint_2_range _ _ Hb) as R. rewrite le_uint_2 in R.
      apply (to_signed_spec 16); [lia|exact R].
  - repeat first [apply Forall_nil_2 | apply Forall_cons_2].
    + exact uint8_never_none.
    + exact date_never_none.
    + exact time_never_none.
    + exact longitude_never_none.
    + exact latitude_never_none.
    + exact company_never_none.
    + exact angle_u16_never_none.
    + exact lookup_never_none.
    + exact speed_never_none.
    + exact manufacturer_never_none.
    + exact industry_never_none.
  - exact field_decoders_guarded.
  - intros data Hb Hlen. unfold decode_angle_u16_field, silent.
    rewrite (py_bytes_ok _ Hb). cbn [mbind completion_bind].
    unfold unpack_H, unpack_le.
    destruct (Nat.eqb_spec (List.length data) 2); [contradiction|reflexivity].
  - intros bytes start self n Hn Hlen. cbn [In] in Hn.
    destruct Hn as [<-|[<-|[<-|[]]]].
    + rewrite (step_degrees_store _ _ _ _ _ _ decoder_Yaw eq_refl).
      rewrite (decode_angle_i16_guard _ Hlen). reflexivity.
    + rewrite (step_degrees_store _ _ _ _ _ _ decoder_Pitch eq_refl).
      rewrite (decode_angle_i16_guard _ Hlen). reflexivity.
    + rewrite (step_degrees_store _ _ _ _ _ _ decoder_Roll eq_refl).
      rewrite (decode_angle_i16_guard _ Hlen). reflexivity.
Qed.

Lemma angle_i16_is_the_only_guarded_decoder_witness :
  decode_angle_i16_field [0x01; 0x02; 0x03] = ([WarnInsufficientData 3], Normal VNone)
  /\ decode_angle_i16_field [0xFF; 0xFF] = ([], Normal (VFloat (-0.0001)))
  /\ decode_angle_u16_field [0x01; 0x02; 0x03] = ([], Raised StructError).
Proof.
  destruct angle_i16_is_the_only_guarded_decoder as (H1 & H2 & _ & _ & H5 & _).
  split; [|split].
  - exact (H1 [0x01; 0x02; 0x03] ltac:(discriminate)).
  - destruct (H2 0xFF 0xFF eq_refl) as [-> _]. vm_compute. reflexivity.
  - exact (H5 [0x01; 0x02; 0x03] eq_refl ltac:(discriminate)).
Defined.

(** ** Idempotence of decoding *)

Section Overwrites.

Lemma apply_writes_app (ws1 ws2 : list (string * pyval)) (m : gmap string pyval) :
  apply_writes (ws1 ++ ws2) m = apply_writes ws2 (apply_writes ws1 m).
Proof. unfold apply_writes. apply fold_left_app. Qed.

Lemma apply_writes_other (ws : list (string * pyval)) (m : gmap string pyval)
    (k : string) :
  k ∉ ws.*1 -> apply_writes ws m !! k = m !! k.
Proof.
  revert m. induction ws as [|[k0 v0] ws IH]; intros m Hk; [reflexivity|].
  cbn [fmap list_fmap fst] in Hk. apply not_elem_of_cons in Hk as [Hne Hk].
  change (apply_writes ws (<[k0 := v0]> m) !! k = m !! k).
  rewrite (IH _ Hk). apply lookup_insert_ne. congruence.
Qed.

Lemma apply_writes_ext (ws : list (string * pyval)) (m1 m2 : gmap string pyval) :
  (forall k, k ∉ ws.*1 -> m1 !! k = m2 !! k) ->
  apply_writes ws m1 = apply_writes ws m2.
Proof.
  revert m1 m2. induction ws as [|[k0 v0] ws IH]; intros m1 m2 H.
  - apply map_eq. intros k. apply H. apply not_elem_of_nil.
  - change (apply_writes ws (<[k0 := v0]> m1) = apply_writes ws (<[k0 := v0]> m2)).
    apply IH. intros k Hk.
    destruct (decide (k0 = k)) as [->|Hne].
    + rewrite !lookup_insert_eq. reflexivity.
    + rewrite !lookup_insert_ne by exact Hne. apply H.
      cbn [fmap list_fmap fst]. apply not_elem_of_cons. split; congruence.
Qed.

Lemma apply_writes_idem (ws : list (string * pyval)) (m : gmap string pyval) :
  apply_writes ws (apply_writes ws m) = apply_writes ws m.
Proof. apply apply_writes_ext. intros k Hk. apply apply_writes_other, Hk. Qed.

Lemma overwrites_id : overwrites (fun self => self).
Proof. exists []. reflexivity. Qed.

Lemma overwrites_compose (g1 g2 : Furuno -> Furuno) :
  overwrites g1 -> overwrites g2 -> overwrites (fun self => g2 (g1 self)).
Proof.
  intros [ws1 H1] [ws2 H2]. exists (ws1 ++ ws2). intros self.
  rewrite H2, H1, apply_writes_app. reflexivity.
Qed.

Lemma overwrites_print (d : diagnostic) : overwrites (print d).
Proof. exists []. reflexivity. Qed.

Lemma overwrites_warn (c : bool) (d : diagnostic) :
  overwrites (fun self => if c then print d self else self).
Proof. destruct c; [apply overwrites_print|apply overwrites_id]. Qed.

Lemma overwrites_try_store (k : string) (data : list Z)
    (rhs : list diagnostic * completion pyval) :
  overwrites (try_store k data rhs).
Proof.
  destruct rhs as [out [v|e]].
  - exists [(k, v)]. reflexivity.
  - exists []. reflexivity.
Qed.

Lemma overwrites_idem (g : Furuno -> Furuno) (self : Furuno) :
  overwrites g -> data_dict (g (g self)) = data_dict (g self).
Proof. intros [ws H]. rewrite !H. apply apply_writes_idem. Qed.

Lemma uniform_skip (start : nat) : uniform (fun self => (start, self)).
Proof. exists start, (fun self => self). split; [apply overwrites_id|reflexivity]. Qed.

Lemma step_gps_uniform (bytes : list Z) (start : nat) (f : field) :
  uniform (fun self => step_gps bytes (start, self) f).
Proof.
  unfold step_gps. destruct (field_decoders !! field_name f) as [d|];
    [|apply uniform_skip].
  eexists _, _. split; [|reflexivity].
  destruct (negb _); [apply overwrites_try_store|apply overwrites_id].
Qed.

Lemma step_cog_sog_uniform (bytes : list Z) (start : nat) (f : field) :
  uniform (fun self => step_cog_sog bytes (start, self) f).
Proof.
  unfold step_cog_sog. destruct (field_decoders !! field_name f) as [d|];
    [|apply uniform_skip].
  eexists _, _. split; [|reflexivity]. apply overwrites_try_store.
Qed.

Lemma step_degrees_uniform (bytes : list Z) (start : nat) (f : field) :
  uniform (fun self => step_degrees bytes (start, self) f).
Proof.
  unfold step_degrees. destruct (field_decoders !! field_name f) as [d|];
    [|apply uniform_skip].
  eexists _, _. split; [|reflexivity].
  destruct (negb _); [apply overwrites_try_store|apply overwrites_id].
Qed.

(** A [for] loop whose steps are uniform is uniform. *)
Lemma loop_uniform (step : nat * Furuno -> field -> nat * Furuno)
    (field_list : list field) :
  (forall start f, uniform (fun self => step (start, self) f)) ->
  forall start g0, overwrites g0 ->
    uniform (fun self => fold_left step field_list (start, g0 self)).
Proof.
  intros Hstep. induction field_list as [|f fl IH]; intros start g0 Hg0.
  - exists start, g0. split; [exact Hg0|reflexivity].
  - destruct (Hstep start f) as (n & g & Hg & Heq).
    destruct (IH n (fun self => g (g0 self)) (overwrites_compose _ _ Hg0 Hg))
      as (n' & g' & Hg' & Heq').
    exists n', g'. split; [exact Hg'|].
    intros self. cbn [fold_left]. rewrite Heq. apply Heq'.
Qed.

Lemma uniform_snd (h : Furuno -> nat * Furuno) :
  uniform h -> overwrites (fun self => (h self).2).
Proof.
  intros (n & g & [ws Hg] & Heq). exists ws. intros self.
  rewrite Heq. apply Hg.
Qed.

Lemma decode_frame_overwrites (message : string) (fr : RawFrame) :
  overwrites (decode_frame message fr).
Proof.
  unfold decode_frame.
  destruct (_ =? 129025);
    [apply uniform_snd, (loop_uniform _ _ (step_gps_uniform _)), overwrites_warn|].
  destruct (_ =? 129026);
    [apply uniform_snd, (loop_uniform _ _ (step_cog_sog_uniform _)), overwrites_warn|].
  destruct (_ =? 127257);
    [apply uniform_snd, (loop_uniform _ _ (step_degrees_uniform _)), overwrites_warn|].
  destruct (_ =? 127250);
    [apply uniform_snd, (loop_uniform _ _ (step_degrees_uniform _)), overwrites_warn|].
  apply overwrites_id.
Qed.

Lemma parse_raw_message_overwrites (message : string) :
  overwrites (fun self => (parse_raw_message message self).2).
Proof.
  unfold parse_raw_message. destruct (parse_frame message) as [fr|e].
  - apply decode_frame_overwrites.
  - apply overwrites_id.
Qed.

End Overwrites.

(** C9.  Processing the same line twice in succession leaves the
    dictionary exactly as processing it once does, from any starting
    object and for any line: every write is an assignment of a value that
    depends on the line alone.  The call also completes the same way both
    times. *)
Theorem decoding_is_idempotent (message : string) (self : Furuno) :
  let once := parse_raw_message message self in
  let twice := parse_raw_message message once.2 in
  get_data twice.2 = get_data once.2 /\ twice.1 = once.1.
Proof.
  intros once twice. split.
  - apply (overwrites_idem (fun s => (parse_raw_message message s).2)).
    apply parse_raw_message_overwrites.
  - unfold twice, once, parse_raw_message.
    destruct (parse_frame message); reflexivity.
Qed.

(** ** Lines that do not parse *)

Lemma parse_frame_cases (message : string) :
  match str_split message with
  | p0 :: p1 :: p2 :: rest =>
      parse_frame message
        = (msgid ← int16 p2; bs ← int16_all rest; Normal (MkRawFrame p0 p1 msgid bs))
  | _ => parse_frame message = Raised IndexError
  end.
Proof.
  unfold parse_frame.
  destruct (str_split message) as [|p0 [|p1 [|p2 rest]]]; reflexivity.
Qed.

Lemma int16_all_raised (toks : list string) :
  (exists tok, tok ∈ toks /\ py_int16 tok = None) ->
  int16_all toks = Raised ValueError.
Proof.
  induction toks as [|t toks IH]; intros (tok & Hin & Hbad).
  - apply elem_of_nil in Hin. contradiction.
  - cbn [int16_all]. destruct (py_int16 t) as [b|] eqn:Ht; [|reflexivity].
    apply elem_of_cons in Hin as [->|Hin]; [congruence|].
    rewrite IH by eauto. reflexivity.
Qed.

Lemma int16_all_normal (toks : list string) :
  (forall tok, tok ∈ toks -> py_int16 tok <> None) ->
  exists bs, int16_all toks = Normal bs.
Proof.
  induction toks as [|t toks IH]; intros H; [exists []; reflexivity|].
  cbn [int16_all]. destruct (py_int16 t) as [b|] eqn:Ht.
  - destruct IH as [bs ->]; [intros tok Hin; apply H; right; exact Hin|].
    exists (b :: bs). reflexivity.
  - exfalso. apply (H t); [left|exact Ht].
Qed.

(** The loop of [run] has no handler: a line on which
    [parse_raw_message] raises ends it, whatever lines follow. *)
Lemma run_stops_at_raise (line : string) (rest : list string) (self self' : Furuno)
    (e : exn) :
  parse_raw_message (str_strip line) self = (Raised e, self') ->
  run (line :: rest) self = (Raised e, self').
Proof. intros H. cbn [run]. rewrite H. reflexivity. Qed.

(** C1, as the code has it.  A line with fewer than three tokens makes
    [parse_raw_message] raise [IndexError]; a line with at least three
    tokens whose message-id token or one of whose payload tokens is not
    base-16 makes it raise [ValueError]; in both cases the exception is
    raised before anything is decoded, and the object (dictionary and
    output) is left as it was.  Every other line is parsed, whatever the
    size of the integers its payload tokens denote: a token above [FF] is
    not a parse error. *)
Theorem malformed_line_raises (message : string) (self : Furuno) :
  let parts := str_split message in
  ((List.length parts < 3)%nat ->
     parse_raw_message message self = (Raised IndexError, self))
  /\ ((3 <= List.length parts)%nat ->
      (exists tok, tok ∈ drop 2 parts /\ py_int16 tok = None) ->
      parse_raw_message message self = (Raised ValueError, self))
  /\ ((3 <= List.length parts)%nat ->
      (forall tok, tok ∈ drop 2 parts -> py_int16 tok <> None) ->
      (parse_raw_message message self).1 = Normal tt).
Proof.
  intros parts. pose proof (parse_frame_cases message) as Hc.
  unfold parse_raw_message. fold parts in Hc.
  destruct parts as [|p0 [|p1 [|p2 rest]]]; cbn [List.length drop];
    try (rewrite Hc; split; [reflexivity|split; intros; lia]).
  rewrite Hc. split; [intros; lia|]. unfold int16. split.
  - intros _ (tok & Hin & Hbad).
    destruct (py_int16 p2) as [m|] eqn:Hp2; [|reflexivity].
    apply elem_of_cons in Hin as [->|Hin]; [congruence|].
    cbn [mbind completion_bind]. rewrite int16_all_raised by eauto. reflexivity.
  - intros _ H.
    destruct (py_int16 p2) as [m|] eqn:Hp2;
      [|exfalso; apply (H p2); [left|exact Hp2]].
    destruct (int16_all_normal rest) as [bs ->];
      [intros tok Hin; apply H; right; exact Hin|].
    reflexivity.
Qed.

Lemma malformed_line_raises_witness :
  parse_raw_message "12:00:00.0 R" (MkFuruno {[ "Heading"%string := VFloat 90 ]} [])
    = (Raised IndexError, MkFuruno {[ "Heading"%string := VFloat 90 ]} [])
  /\ parse_raw_message "12:00:00.0 R 09F11200 00 0G 10"
       (MkFuruno {[ "Heading"%string := VFloat 90 ]} [])
    = (Raised ValueError, MkFuruno {[ "Heading"%string := VFloat 90 ]} []).
Proof.
  split.
  - apply (malformed_line_raises "12:00:00.0 R"). vm_compute. lia.
  - apply (malformed_line_raises "12:00:00.0 R 09F11200 00 0G 10").
    + vm_compute. lia.
    + exists "0G"%string. split; [|reflexivity].
      change (str_split "12:00:00.0 R 09F11200 00 0G 10")
        with ["12:00:00.0"; "R"; "09F11200"; "00"; "0G"; "10"]%string.
      cbn [drop]. set_solver.
Defined.

(** C1 as stated fails on two counts.  The payload token [1FF] denotes
    511, above [FF], yet the PGN-129026 line carrying it is parsed and
    decoded, and 511 is stored under [SID].  And a line of two tokens ends
    [run]: the well-formed line that follows it is never processed, though
    on its own it would store [Heading]. *)
Lemma malformed_line_counterexample :
  (py_int16 "1FF" = Some 511 /\ 0xFF < 511)
  /\ parse_raw_message "12:00:00.0 R 09F80200 1FF" init
     = (Normal tt,
        MkFuruno {[ "SID"%string := VInt 511 ]}
          [WarnIncomplete 6 1 "12:00:00.0 R 09F80200 1FF"])
  /\ run ["12:00:00.0 R"; "12:00:00.0 R 09F11200 00 00 10"]%string init
     = (Raised IndexError, MkFuruno ∅ [])
  /\ run ["12:00:00.0 R 09F11200 00 00 10"]%string init
     = (Normal tt, MkFuruno {[ "Heading"%string := VFloat 23.468351288558523 ]} []).
Proof.
  split; [split; [reflexivity|lia]|].
  split; [vm_compute; reflexivity|].
  split; vm_compute; reflexivity.
Qed.

(** * Further properties of the code *)

(** ** The dictionary effect of a line *)

Lemma store_unconverted_writes (r : completion pyval) (k : string)
    (m : gmap string pyval) :
  store_unconverted r k m = apply_writes (write_as_is k r) m.
Proof. destruct r; reflexivity. Qed.

Lemma store_converted_writes (r : completion pyval) (k : string)
    (m : gmap string pyval) :
  store_converted r k m = apply_writes (write_degrees k r) m.
Proof. destruct r as [[]|]; reflexivity. Qed.

Lemma decode_frame_writes (message : string) (fr : RawFrame) (self : Furuno) :
  data_dict (decode_frame message fr self)
    = apply_writes (frame_writes (get_pgn_from_message (msgid fr)) (int_data_bytes fr))
        (data_dict self).
Proof.
  unfold decode_frame, frame_writes.
  destruct (_ =? 129025).
  { rewrite walk_gps_dict, !store_unconverted_writes, apply_writes_app. reflexivity. }
  destruct (_ =? 129026).
  { rewrite walk_cog_sog_dict, store_unconverted_writes. reflexivity. }
  destruct (_ =? 127257).
  { rewrite walk_attitude_dict, !store_converted_writes, !apply_writes_app. reflexivity. }
  destruct (_ =? 127250).
  { rewrite walk_heading_dict, store_converted_writes. reflexivity. }
  reflexivity.
Qed.

Lemma parse_raw_message_writes (message : string) (fr : RawFrame) (self : Furuno) :
  parse_frame message = Normal fr ->
  data_dict (parse_raw_message message self).2
    = apply_writes (frame_writes (get_pgn_from_message (msgid fr)) (int_data_bytes fr))
        (data_dict self).
Proof.
  intros H. rewrite (parse_raw_message_frame _ _ _ H). apply decode_frame_writes.
Qed.

Lemma parse_raw_message_raised (message : string) (e : exn) (self : Furuno) :
  parse_frame message = Raised e ->
  parse_raw_message message self = (Raised e, self).
Proof. intros H. unfold parse_raw_message. rewrite H. reflexivity. Qed.

(** ** Message ids *)

(** X1.  A message id assembled from a priority, a PGN below 2^18 and a
    source address below 2^8 gives back that PGN, whatever the priority
    and the source address are. *)
Theorem pgn_of_assembled_id (priority pgn source : Z) :
  0 <= pgn < 2 ^ 18 ->
  0 <= source < 2 ^ 8 ->
  get_pgn_from_message (priority * 2 ^ 26 + pgn * 2 ^ 8 + source) = pgn.
Proof.
  intros Hp Hs. rewrite get_pgn_from_message_div.
  replace (priority * 2 ^ 26 + pgn * 2 ^ 8 + source)
    with ((priority * 2 ^ 18 + pgn) * 2 ^ 8 + source) by lia.
  rewrite Z.div_add_l by lia.
  rewrite (Z.div_small source) by lia.
  rewrite Z.add_0_r, Z.add_comm, Z.mod_add by lia.
  apply Z.mod_small. exact Hp.
Qed.

Lemma pgn_of_assembled_id_witness :
  get_pgn_from_message (2 * 2 ^ 26 + 127250 * 2 ^ 8 + 0x23) = 127250.
Proof. apply pgn_of_assembled_id; lia. Defined.

(** ** What the dictionary can hold *)

Lemma i32_result (data : list Z) (v : pyval) :
  (decode_latitude_i32_field data).2 = Normal v
  \/ (decode_longitude_i32_field data).2 = Normal v ->
  exists x, v = VFloat x.
Proof.
  unfold decode_latitude_i32_field, decode_longitude_i32_field, silent. cbn [snd].
  destruct (py_bytes (take 4 data)) as [b|]; cbn [mbind completion_bind];
    [|intros [|]; discriminate].
  destruct (unpack_i b); cbn [mbind completion_bind]; [|intros [|]; discriminate].
  intros [[= <-]|[= <-]]; eauto.
Qed.

Lemma uint8_result (data : list Z) (v : pyval) :
  (decode_uint8_field data).2 = Normal v -> exists z, v = VInt z.
Proof.
  unfold decode_uint8_field, silent. cbn [snd].
  destruct (index data 0); cbn [mbind completion_bind]; [|discriminate].
  intros [= <-]. eauto.
Qed.

Lemma write_degrees_typed (k : string) (r : completion pyval) :
  k ∈ ["Latitude"; "Longitude"; "Yaw"; "Pitch"; "Roll"; "Heading"]%string ->
  Forall (fun kv => typed_entry kv.1 kv.2) (write_degrees k r).
Proof.
  intros Hk. destruct r as [[]|]; cbn [write_degrees]; try apply Forall_nil_2.
  apply Forall_cons_2; [|apply Forall_nil_2].
  left. split; [exact Hk|eauto].
Qed.

Lemma frame_writes_typed (pgn : Z) (bytes : list Z) :
  Forall (fun kv => typed_entry kv.1 kv.2) (frame_writes pgn bytes).
Proof.
  unfold frame_writes.
  destruct (_ =? 129025).
  { apply Forall_app. split.
    - destruct (decode_latitude_i32_field _).2 as [v|] eqn:E; cbn [write_as_is];
        [apply Forall_cons_2; [|apply Forall_nil_2]|apply Forall_nil_2].
      left. split; [set_solver|]. apply (i32_result (slice bytes 0 4)). left. exact E.
    - destruct (decode_longitude_i32_field _).2 as [v|] eqn:E; cbn [write_as_is];
        [apply Forall_cons_2; [|apply Forall_nil_2]|apply Forall_nil_2].
      left. split; [set_solver|]. apply (i32_result (slice bytes 4 4)). right. exact E. }
  destruct (_ =? 129026).
  { destruct (decode_uint8_field _).2 as [v|] eqn:E; cbn [write_as_is];
      [apply Forall_cons_2; [|apply Forall_nil_2]|apply Forall_nil_2].
    right. split; [reflexivity|]. apply (uint8_result _ _ E). }
  destruct (_ =? 127257).
  { repeat (apply Forall_app; split); apply write_degrees_typed; set_solver. }
  destruct (_ =? 127250).
  { apply write_degrees_typed; set_solver. }
  apply Forall_nil_2.
Qed.

Lemma apply_writes_Forall (P : string -> pyval -> Prop)
    (ws : list (string * pyval)) (m : gmap string pyval) :
  Forall (fun kv => P kv.1 kv.2) ws ->
  map_Forall P m -> map_Forall P (apply_writes ws m).
Proof.
  revert m. induction ws as [|[k v] ws IH]; intros m Hws Hm; [exact Hm|].
  apply Forall_cons in Hws as [Hkv Hws].
  change (map_Forall P (apply_writes ws (<[k := v]> m))).
  apply IH; [exact Hws|]. apply map_Forall_insert_2; assumption.
Qed.

Lemma parse_raw_message_typed (message : string) (self : Furuno) :
  map_Forall typed_entry (data_dict self) ->
  map_Forall typed_entry (data_dict (parse_raw_message message self).2).
Proof.
  intros H. destruct (parse_frame message) as [fr|e] eqn:E.
  - rewrite (parse_raw_message_writes _ _ _ E).
    apply apply_writes_Forall; [apply frame_writes_typed|exact H].
  - rewrite (parse_raw_message_raised _ _ _ E). exact H.
Qed.

(** X2.  Whatever lines [run] is fed, starting from a dictionary whose
    entries are well typed (the empty one of [__init__] is), every entry
    of the dictionary is well typed afterwards, whether the loop is still
    running or has been ended by an exception: [Latitude], [Longitude],
    [Yaw], [Pitch], [Roll] and [Heading] hold floats, [SID] holds an int,
    and no other key exists.  In particular [None] is never stored, and
    [COG Reference], [COG] and [SOG] never appear. *)
Theorem store_stays_well_typed (lines : list string) (self : Furuno) :
  map_Forall typed_entry (get_data self) ->
  map_Forall typed_entry (get_data (run lines self).2)
  /\ (forall k, k ∈ dom (get_data (run lines self).2) ->
        k ∈ ["Latitude"; "Longitude"; "Yaw"; "Pitch"; "Roll"; "Heading"; "SID"]%string)
  /\ (forall k, get_data (run lines self).2 !! k <> Some VNone).
Proof.
  intros H.
  assert (Ht : map_Forall typed_entry (get_data (run lines self).2)).
  { unfold get_data in *. revert self H.
    induction lines as [|line rest IH]; intros self H; [exact H|].
    cbn [run]. pose proof (parse_raw_message_typed (str_strip line) self H) as H'.
    destruct (parse_raw_message (str_strip line) self) as [[[]|e] self'].
    - apply IH. exact H'.
    - exact H'. }
  split; [exact Ht|]. split.
  - intros k Hk. apply elem_of_dom in Hk as [v Hv].
    destruct (Ht k v Hv) as [[Hin _]|[-> _]].
    + rewrite !elem_of_cons in Hin. rewrite !elem_of_cons. tauto.
    + rewrite !elem_of_cons. tauto.
  - intros k Hk. destruct (Ht k _ Hk) as [[_ [x Hx]]|[_ [z Hz]]]; discriminate.
Qed.

Lemma store_stays_well_typed_witness :
  map_Forall typed_entry
    (get_data
       (run [ "12:00:00.0 R 09F80200 1FF"; "12:00:00.1 R 09F11900 01 02 03";
              "12:00:00.2 R" ]%string init).2).
Proof.
  apply (store_stays_well_typed _ init). apply map_Forall_empty.
Defined.

(** ** What every line leaves in place *)

(** A property of state transformers that holds of the identity, of
    [print], of the [try] statement, and is kept by composition, holds of
    everything [parse_raw_message] can do to the object. *)
Section Effects.

Variable P : (Furuno -> Furuno) -> Prop.
Hypothesis P_ext : forall g g', (forall self, g self = g' self) -> P g -> P g'.
Hypothesis P_id : P (fun self => self).
Hypothesis P_compose : forall g1 g2, P g1 -> P g2 -> P (fun self => g2 (g1 self)).
Hypothesis P_print : forall d, P (print d).
Hypothesis P_try_store : forall k data rhs, P (try_store k data rhs).

Lemma effects_loop (step : nat * Furuno -> field -> nat * Furuno)
    (field_list : list field) :
  (forall start f, exists n g, P g /\ forall self, step (start, self) f = (n, g self)) ->
  forall start g0, P g0 ->
    exists n g, P g /\ forall self, fold_left step field_list (start, g0 self) = (n, g self).
Proof.
  intros Hstep. induction field_list as [|f fl IH]; intros start g0 Hg0.
  - exists start, g0. split; [exact Hg0|reflexivity].
  - destruct (Hstep start f) as (n & g & Hg & Heq).
    destruct (IH n (fun self => g (g0 self)) (P_compose _ _ Hg0 Hg))
      as (n' & g' & Hg' & Heq').
    exists n', g'. split; [exact Hg'|].
    intros self. cbn [fold_left]. rewrite Heq. apply Heq'.
Qed.

Lemma effects_step_gps (bytes : list Z) (start : nat) (f : field) :
  exists n g, P g /\ forall self, step_gps bytes (start, self) f = (n, g self).
Proof.
  unfold step_gps. destruct (field_decoders !! field_name f) as [d|].
  - destruct (negb _); eexists _, _; (split; [|reflexivity]);
      [apply P_try_store|apply P_id].
  - exists start, (fun self => self). split; [apply P_id|reflexivity].
Qed.

Lemma effects_step_cog_sog (bytes : list Z) (start : nat) (f : field) :
  exists n g, P g /\ forall self, step_cog_sog bytes (start, self) f = (n, g self).
Proof.
  unfold step_cog_sog. destruct (field_decoders !! field_name f) as [d|].
  - eexists _, _. split; [|reflexivity]. apply P_try_store.
  - exists start, (fun self => self). split; [apply P_id|reflexivity].
Qed.

Lemma effects_step_degrees (bytes : list Z) (start : nat) (f : field) :
  exists n g, P g /\ forall self, step_degrees bytes (start, self) f = (n, g self).
Proof.
  unfold step_degrees. destruct (field_decoders !! field_name f) as [d|].
  - destruct (negb _); eexists _, _; (split; [|reflexivity]);
      [apply P_try_store|apply P_id].
  - exists start, (fun self => self). split; [apply P_id|reflexivity].
Qed.

Lemma effects_warn (c : bool) (d : diagnostic) :
  P (fun self => if c then print d self else self).
Proof. destruct c; [apply P_print|apply P_id]. Qed.

Lemma effects_walk (step : nat * Furuno -> field -> nat * Furuno)
    (field_list : list field) (c : bool) (d : diagnostic) :
  (forall start f, exists n g, P g /\ forall self, step (start, self) f = (n, g self)) ->
  P (fun self =>
       (fold_left step field_list (0%nat, if c then print d self else self)).2).
Proof.
  intros Hstep.
  destruct (effects_loop step field_list Hstep 0%nat _ (effects_warn c d))
    as (n & g & Hg & Heq).
  apply (P_ext g); [|exact Hg]. intros self. rewrite Heq. reflexivity.
Qed.

Lemma effects_decode_frame (message : string) (fr : RawFrame) :
  P (decode_frame message fr).
Proof.
  unfold decode_frame.
  destruct (_ =? 129025); [apply effects_walk, effects_step_gps|].
  destruct (_ =? 129026); [apply effects_walk, effects_step_cog_sog|].
  destruct (_ =? 127257); [apply effects_walk, effects_step_degrees|].
  destruct (_ =? 127250); [apply effects_walk, effects_step_degrees|].
  apply P_id.
Qed.

Lemma effects_parse_raw_message (message : string) :
  P (fun self => (parse_raw_message message self).2).
Proof.
  unfold parse_raw_message. destruct (parse_frame message) as [fr|e].
  - apply effects_decode_frame.
  - apply P_id.
Qed.

End Effects.

(** The transformers that keep every key of the dictionary and everything
    printed so far. *)
Lemma keeps_parse_raw_message (message : string) (self : Furuno) :
  dom (data_dict self) ⊆ dom (data_dict (parse_raw_message message self).2)
  /\ stdout self `prefix_of` stdout (parse_raw_message message self).2.
Proof.
  revert self.
  apply (effects_parse_raw_message
           (fun g => forall self,
              dom (data_dict self) ⊆ dom (data_dict (g self))
              /\ stdout self `prefix_of` stdout (g self))).
  - intros g g' Heq Hg self. rewrite <- Heq. apply Hg.
  - intros self. split; reflexivity.
  - intros g1 g2 H1 H2 self. destruct (H1 self) as [A1 B1].
    destruct (H2 (g1 self)) as [A2 B2].
    split; [etrans; eassumption|etrans; eassumption].
  - intros d self. split; [reflexivity|]. apply prefix_app_r. reflexivity.
  - intros k data [out [v|e]] self.
    + rewrite try_store_normal. cbn [setitem print_all data_dict stdout]. split.
      * rewrite dom_insert_L. apply union_subseteq_r.
      * apply prefix_app_r. reflexivity.
    + rewrite try_store_raised. cbn [print print_all data_dict stdout]. split.
      * reflexivity.
      * rewrite <- app_assoc. apply prefix_app_r. reflexivity.
Qed.

(** X3.  Whatever lines [run] is fed, no key is ever removed from the
    dictionary and nothing that was printed is ever taken back: the keys
    before are among the keys after, and the output before is a prefix of
    the output after.  This holds also when the loop ends with an
    exception. *)
Theorem run_keeps_keys_and_output (lines : list string) (self : Furuno) :
  dom (get_data self) ⊆ dom (get_data (run lines self).2)
  /\ stdout self `prefix_of` stdout (run lines self).2.
Proof.
  unfold get_data. revert self.
  induction lines as [|line rest IH]; intros self; [split; reflexivity|].
  cbn [run]. destruct (keeps_parse_raw_message (str_strip line) self) as [A B].
  destruct (parse_raw_message (str_strip line) self) as [[[]|e] self'];
    cbn [snd] in A, B.
  - destruct (IH self') as [A' B']. split; etrans; eassumption.
  - split; assumption.
Qed.

(** ** What a line's effect depends on *)

Lemma slice_take (bytes : list Z) (n start len : nat) :
  (start + len <= n)%nat ->
  slice (take n bytes) start len = slice bytes start len.
Proof.
  intros H. unfold slice. rewrite !take_drop_commute, take_take.
  rewrite Nat.min_l by exact H. reflexivity.
Qed.

Lemma frame_writes_take (pgn : Z) (bytes : list Z) :
  frame_writes pgn (take (bytes_read pgn) bytes) = frame_writes pgn bytes.
Proof.
  unfold frame_writes, bytes_read.
  destruct (_ =? 129025); [rewrite !slice_take by lia; reflexivity|].
  destruct (_ =? 129026); [rewrite !slice_take by lia; reflexivity|].
  destruct (_ =? 127257); [rewrite !slice_take by lia; reflexivity|].
  destruct (_ =? 127250); [rewrite !slice_take by lia; reflexivity|].
  reflexivity.
Qed.

(** X4.  What a line does to the dictionary depends only on its PGN and
    on the first 8 (PGN 129025), 1 (129026), 7 (127257) or 3 (127250)
    payload items.  The timestamp and direction tokens, the priority and
    source-address bits of the message id, and any further payload items
    play no part. *)
Theorem effect_depends_on_pgn_and_payload_prefix (message1 message2 : string)
    (fr1 fr2 : RawFrame) (self : Furuno) :
  parse_frame message1 = Normal fr1 ->
  parse_frame message2 = Normal fr2 ->
  get_pgn_from_message (msgid fr1) = get_pgn_from_message (msgid fr2) ->
  take (bytes_read (get_pgn_from_message (msgid fr1))) (int_data_bytes fr1)
    = take (bytes_read (get_pgn_from_message (msgid fr1))) (int_data_bytes fr2) ->
  get_data (parse_raw_message message1 self).2
    = get_data (parse_raw_message message2 self).2.
Proof.
  intros H1 H2 Hpgn Hbytes. unfold get_data.
  rewrite (parse_raw_message_writes _ _ _ H1), (parse_raw_message_writes _ _ _ H2).
  rewrite <- Hpgn.
  rewrite <- (frame_writes_take _ (int_data_bytes fr1)).
  rewrite <- (frame_writes_take _ (int_data_bytes fr2)).
  rewrite Hbytes. reflexivity.
Qed.

Lemma effect_depends_on_pgn_and_payload_prefix_witness :
  get_data (parse_raw_message "12:00:00.0 R 09F11200 00 00 10" init).2
    = get_data (parse_raw_message "23:59:59.9 T 1DF112FE 00 00 10 FF FF 1FF" init).2.
Proof.
  apply (effect_depends_on_pgn_and_payload_prefix
           "12:00:00.0 R 09F11200 00 00 10"
           "23:59:59.9 T 1DF112FE 00 00 10 FF FF 1FF"
           (MkRawFrame "12:00:00.0" "R" 0x09F11200 [0x00; 0x00; 0x10])
           (MkRawFrame "23:59:59.9" "T" 0x1DF112FE [0x00; 0x00; 0x10; 0xFF; 0xFF; 0x1FF]));
    reflexivity.
Defined.

(** ** The walks, on any payload *)

Lemma walk_gps_eq (message : string) (bytes : list Z) (self : Furuno) :
  walk_gps message bytes self
    = (8%nat,
       try_store "Longitude" (slice bytes 4 4) (decode_longitude_i32_field (slice bytes 4 4))
         (try_store "Latitude" (slice bytes 0 4) (decode_latitude_i32_field (slice bytes 0 4))
            (if (List.length bytes <? 8)%nat
             then print (WarnMessageLength (List.length bytes) 8 message) self
             else self))).
Proof.
  unfold walk_gps, field_list_gps. cbn [fold_left].
  rewrite (step_gps_store _ _ _ _ _ _ decoder_Latitude eq_refl).
  rewrite (step_gps_store _ _ _ _ _ _ decoder_Longitude eq_refl).
  reflexivity.
Qed.

Lemma walk_attitude_eq (message : string) (bytes : list Z) (self : Furuno) :
  walk_attitude message bytes self
    = (7%nat,
       let conv := fun data =>
         ((decode_angle_i16_field data).1, (decode_angle_i16_field data).2 ≫= to_degrees) in
       try_store "Roll" (slice bytes 5 2) (conv (slice bytes 5 2))
         (try_store "Pitch" (slice bytes 3 2) (conv (slice bytes 3 2))
            (try_store "Yaw" (slice bytes 1 2) (conv (slice bytes 1 2))
               (if (List.length bytes <? 7)%nat
                then print (WarnMessageLength (List.length bytes) 7 message) self
                else self)))).
Proof.
  unfold walk_attitude, field_list_attitude. cbn [fold_left].
  rewrite step_degrees_sid.
  rewrite (step_degrees_store _ _ _ _ _ _ decoder_Yaw eq_refl).
  rewrite (step_degrees_store _ _ _ _ _ _ decoder_Pitch eq_refl).
  rewrite (step_degrees_store _ _ _ _ _ _ decoder_Roll eq_refl).
  reflexivity.
Qed.

Lemma walk_heading_eq (message : string) (bytes : list Z) (self : Furuno) :
  walk_heading message bytes self
    = (3%nat,
       try_store "Heading" (slice bytes 1 2)
         ((decode_angle_u16_field (slice bytes 1 2)).1,
          (decode_angle_u16_field (slice bytes 1 2)).2 ≫= to_degrees)
         (if (List.length bytes <? 3)%nat
          then print (WarnMessageLength (List.length bytes) 3 message) self
          else self)).
Proof.
  unfold walk_heading, field_list_heading. cbn [fold_left].
  rewrite step_degrees_sid.
  rewrite (step_degrees_store _ _ _ _ _ _ decoder_Heading eq_refl).
  reflexivity.
Qed.

Lemma decode_frame_gps (message : string) (fr : RawFrame) (self : Furuno) :
  get_pgn_from_message (msgid fr) = 129025 ->
  decode_frame message fr self = (walk_gps message (int_data_bytes fr) self).2.
Proof. intros E. unfold decode_frame. rewrite E. reflexivity. Qed.

Lemma decode_frame_cog_sog (message : string) (fr : RawFrame) (self : Furuno) :
  get_pgn_from_message (msgid fr) = 129026 ->
  decode_frame message fr self = (walk_cog_sog message (int_data_bytes fr) self).2.
Proof. intros E. unfold decode_frame. rewrite E. reflexivity. Qed.

Lemma decode_frame_attitude (message : string) (fr : RawFrame) (self : Furuno) :
  get_pgn_from_message (msgid fr) = 127257 ->
  decode_frame message fr self = (walk_attitude message (int_data_bytes fr) self).2.
Proof. intros E. unfold decode_frame. rewrite E. reflexivity. Qed.

Lemma decode_frame_heading (message : string) (fr : RawFrame) (self : Furuno) :
  get_pgn_from_message (msgid fr) = 127250 ->
  decode_frame message fr self = (walk_heading message (int_data_bytes fr) self).2.
Proof. intros E. unfold decode_frame. rewrite E. reflexivity. Qed.

(** X5.  In the branches of PGN 129025, 127257 and 127250 every field of
    the list has a decoder, so the loop never leaves through [continue]:
    whatever the payload is and however the decoders fare, the running
    offset ends at the declared total of the field list, 8, 7 and 3. *)
Theorem offsets_reach_declared_total (message : string) (bytes : list Z)
    (self : Furuno) :
  (walk_gps message bytes self).1 = expected_byte_count field_list_gps
  /\ (walk_attitude message bytes self).1 = expected_byte_count field_list_attitude
  /\ (walk_heading message bytes self).1 = expected_byte_count field_list_heading
  /\ (forall f, f ∈ field_list_gps ++ field_list_attitude ++ field_list_heading ->
        is_Some (field_decoders !! field_name f)).
Proof.
  rewrite walk_gps_eq, walk_attitude_eq, walk_heading_eq.
  split; [reflexivity|]. split; [reflexivity|]. split; [reflexivity|].
  intros f Hf. unfold field_list_gps, field_list_attitude, field_list_heading in Hf.
  cbn [app] in Hf.
  repeat (apply elem_of_cons in Hf as [->|Hf]); try (eexists; reflexivity).
  apply elem_of_nil in Hf. contradiction.
Qed.

(** ** Position frames with short or damaged payloads *)

Lemma forallb_take {A} (f : A -> bool) (l : list A) (n : nat) :
  forallb f l = true -> forallb f (take n l) = true.
Proof.
  revert n. induction l as [|a l IH]; intros [|n] H; try reflexivity.
  cbn [take forallb] in *. apply andb_true_iff in H as [-> H].
  rewrite (IH n H). reflexivity.
Qed.

Lemma forallb_drop {A} (f : A -> bool) (l : list A) (n : nat) :
  forallb f l = true -> forallb f (drop n l) = true.
Proof.
  revert n. induction l as [|a l IH]; intros [|n] H; try reflexivity; [exact H|].
  cbn [drop]. cbn [forallb] in H. apply andb_true_iff in H as [_ H]. apply IH, H.
Qed.

Lemma decode_i32_in_range (data : list Z) :
  forallb is_byte data = true ->
  let r :=
    if (4 <=? List.length data)%nat
    then Normal (VFloat (Z2float (to_signed 32 (le_uint (take 4 data))) * 1e-7))
    else Raised StructError in
  decode_latitude_i32_field data = ([], r)
  /\ decode_longitude_i32_field data = ([], r).
Proof.
  intros Hb r. subst r.
  unfold decode_latitude_i32_field, decode_longitude_i32_field, silent.
  rewrite (py_bytes_ok _ (forallb_take _ _ 4 Hb)). cbn [mbind completion_bind].
  unfold unpack_i, unpack_le. rewrite length_take.
  destruct (Nat.leb_spec 4 (List.length data)).
  - rewrite Nat.min_l by lia. split; reflexivity.
  - rewrite Nat.min_r by lia.
    destruct (Nat.eqb_spec (List.length data) 4); [lia|]. split; reflexivity.
Qed.

Lemma decode_i32_out_of_range (data : list Z) :
  forallb is_byte (take 4 data) = false ->
  decode_latitude_i32_field data = ([], Raised ValueError)
  /\ decode_longitude_i32_field data = ([], Raised ValueError).
Proof.
  intros Hb.
  unfold decode_latitude_i32_field, decode_longitude_i32_field, silent, py_bytes.
  rewrite Hb. split; reflexivity.
Qed.

(** X6.  A PGN-129025 line whose payload items are all bytes but fewer
    than eight: with four to seven of them [Latitude] is decoded from the
    first four and stored, and [Longitude] is reported as not decoded
    ([struct.error] on the items left over); with fewer than four nothing
    is stored and both fields are reported.  In both cases the length
    warning comes first and the call returns normally. *)
Theorem short_position_frame (message : string) (fr : RawFrame) (self : Furuno) :
  parse_frame message = Normal fr ->
  get_pgn_from_message (msgid fr) = 129025 ->
  forallb is_byte (int_data_bytes fr) = true ->
  let bytes := int_data_bytes fr in
  let n := List.length bytes in
  ((4 <= n < 8)%nat ->
     parse_raw_message message self
       = (Normal tt,
          MkFuruno
            (<["Latitude"%string :=
                 VFloat (Z2float (to_signed 32 (le_uint (take 4 bytes))) * 1e-7)]>
               (data_dict self))
            (stdout self ++
               [ WarnMessageLength n 8 message;
                 CouldNotDecode "Longitude" StructError (drop 4 bytes) ])))
  /\ ((n < 4)%nat ->
      parse_raw_message message self
        = (Normal tt,
           MkFuruno (data_dict self)
             (stdout self ++
                [ WarnMessageLength n 8 message;
                  CouldNotDecode "Latitude" StructError bytes;
                  CouldNotDecode "Longitude" StructError [] ]))).
Proof.
  intros Hparse Hpgn Hb bytes n.
  rewrite (parse_raw_message_frame _ _ _ Hparse), (decode_frame_gps _ _ _ Hpgn).
  fold bytes. rewrite walk_gps_eq. fold n. cbn [snd].
  assert (H0 : forallb is_byte (slice bytes 0 4) = true)
    by (apply forallb_take, forallb_drop, Hb).
  assert (H4 : forallb is_byte (slice bytes 4 4) = true)
    by (apply forallb_take, forallb_drop, Hb).
  rewrite (proj1 (decode_i32_in_range _ H0)), (proj2 (decode_i32_in_range _ H4)).
  assert (L0 : List.length (slice bytes 0 4) = Nat.min 4 n)
    by (unfold slice; rewrite length_take, length_drop; fold n; lia).
  assert (L4 : List.length (slice bytes 4 4) = Nat.min 4 (n - 4))
    by (unfold slice; rewrite length_take, length_drop; fold n; lia).
  rewrite L0, L4. split; intros Hn.
  - destruct (Nat.ltb_spec n 8); [|lia].
    destruct (Nat.leb_spec 4 (Nat.min 4 n)); [|lia].
    destruct (Nat.leb_spec 4 (Nat.min 4 (n - 4))); [lia|].
    rewrite try_store_normal, try_store_raised, !print_all_nil.
    unfold slice at 2. rewrite take_take. cbn [Nat.min drop].
    unfold slice. rewrite (take_ge (drop 4 bytes)) by (rewrite length_drop; fold n; lia).
    unfold print, setitem. cbn [data_dict stdout]. rewrite <- app_assoc. reflexivity.
  - destruct (Nat.ltb_spec n 8); [|lia].
    destruct (Nat.leb_spec 4 (Nat.min 4 n)); [lia|].
    destruct (Nat.leb_spec 4 (Nat.min 4 (n - 4))); [lia|].
    rewrite !try_store_raised, !print_all_nil.
    unfold slice. cbn [drop]. rewrite (take_ge bytes) by (fold n; lia).
    rewrite (drop_ge bytes) by (fold n; lia). cbn [take].
    unfold print. cbn [data_dict stdout]. rewrite <- !app_assoc. reflexivity.
Qed.

Lemma short_position_frame_witness :
  parse_raw_message "12:00:00.0 R 09F80100 00 2A 5B 1C 80" init
    = (Normal tt,
       MkFuruno {[ "Latitude"%string := VFloat 47.573657599999997 ]}
         [ WarnMessageLength 5 8 "12:00:00.0 R 09F80100 00 2A 5B 1C 80";
           CouldNotDecode "Longitude" StructError [0x80] ]).
Proof.
  destruct (short_position_frame
              "12:00:00.0 R 09F80100 00 2A 5B 1C 80"
              (MkRawFrame "12:00:00.0" "R" 0x09F80100 [0x00; 0x2A; 0x5B; 0x1C; 0x80])
              init eq_refl eq_refl eq_refl) as [H _].
  rewrite H by (cbn; lia). vm_compute. reflexivity.
Defined.

(** X7.  In a PGN-129025 line of eight payload items a field is spoilt
    only by its own items: if one of the first four is not a byte (a
    token above [FF]) while the last four are, [Latitude] is reported as
    not decoded and keeps its old value, and [Longitude] is still
    decoded and stored; and the other way round. *)
Theorem position_fields_fail_separately (message : string) (fr : RawFrame)
    (self : Furuno) (b0 b1 b2 b3 b4 b5 b6 b7 : Z) :
  parse_frame message = Normal fr ->
  get_pgn_from_message (msgid fr) = 129025 ->
  int_data_bytes fr = [b0; b1; b2; b3; b4; b5; b6; b7] ->
  (forallb is_byte [b0; b1; b2; b3] = false ->
   forallb is_byte [b4; b5; b6; b7] = true ->
   parse_raw_message message self
     = (Normal tt,
        MkFuruno
          (<["Longitude"%string :=
               VFloat (Z2float (to_signed 32 (le_uint [b4; b5; b6; b7])) * 1e-7)]>
             (data_dict self))
          (stdout self ++ [CouldNotDecode "Latitude" ValueError [b0; b1; b2; b3]])))
  /\ (forallb is_byte [b0; b1; b2; b3] = true ->
      forallb is_byte [b4; b5; b6; b7] = false ->
      parse_raw_message message self
        = (Normal tt,
           MkFuruno
             (<["Latitude"%string :=
                  VFloat (Z2float (to_signed 32 (le_uint [b0; b1; b2; b3])) * 1e-7)]>
                (data_dict self))
             (stdout self ++ [CouldNotDecode "Longitude" ValueError [b4; b5; b6; b7]]))).
Proof.
  intros Hparse Hpgn Hbytes.
  rewrite (parse_raw_message_frame _ _ _ Hparse), (decode_frame_gps _ _ _ Hpgn).
  rewrite Hbytes, walk_gps_eq. cbn [snd].
  change (List.length _ <? 8)%nat with false. cbv iota.
  change (slice [b0; b1; b2; b3; b4; b5; b6; b7] 0 4) with [b0; b1; b2; b3].
  change (slice [b0; b1; b2; b3; b4; b5; b6; b7] 4 4) with [b4; b5; b6; b7].
  split; intros Hlat Hlon.
  - rewrite (proj1 (decode_i32_out_of_range [b0; b1; b2; b3] Hlat)).
    rewrite (proj2 (decode_i32_bytes _ _ _ _ Hlon)).
    rewrite try_store_normal, try_store_raised, !print_all_nil. reflexivity.
  - rewrite (proj1 (decode_i32_bytes _ _ _ _ Hlat)).
    rewrite (proj2 (decode_i32_out_of_range [b4; b5; b6; b7] Hlon)).
    rewrite try_store_normal, try_store_raised, !print_all_nil. reflexivity.
Qed.

Lemma position_fields_fail_separately_witness :
  parse_raw_message "12:00:00.0 R 09F80100 00 2A 5B 1FF 80 96 98 00" init
    = (Normal tt,
       MkFuruno {[ "Longitude"%string := VFloat 1 ]}
         [ CouldNotDecode "Latitude" ValueError [0x00; 0x2A; 0x5B; 0x1FF] ]).
Proof.
  destruct (position_fields_fail_separately
              "12:00:00.0 R 09F80100 00 2A 5B 1FF 80 96 98 00"
              (MkRawFrame "12:00:00.0" "R" 0x09F80100
                 [0x00; 0x2A; 0x5B; 0x1FF; 0x80; 0x96; 0x98; 0x00])
              init 0x00 0x2A 0x5B 0x1FF 0x80 0x96 0x98 0x00
              eq_refl eq_refl eq_refl) as [H _].
  rewrite (H eq_refl eq_refl). vm_compute. reflexivity.
Defined.

(** ** Which keys a line assigns, and how lines compose *)

Lemma line_writes_spec (message : string) (self : Furuno) :
  data_dict (parse_raw_message message self).2
    = apply_writes (line_writes message) (data_dict self).
Proof.
  unfold line_writes. destruct (parse_frame message) as [fr|e] eqn:E.
  - apply parse_raw_message_writes, E.
  - rewrite (parse_raw_message_raised _ _ _ E). reflexivity.
Qed.

Lemma write_as_is_keys (k : string) (r : completion pyval) (k' : string) :
  k' ∈ (write_as_is k r).*1 -> k' = k.
Proof.
  destruct r; cbn; intros H.
  - apply list_elem_of_singleton in H. exact H.
  - apply elem_of_nil in H. contradiction.
Qed.

Lemma write_degrees_keys (k : string) (r : completion pyval) (k' : string) :
  k' ∈ (write_degrees k r).*1 -> k' = k.
Proof.
  destruct r as [[]|]; cbn; intros H;
    first [apply list_elem_of_singleton in H; exact H
          |apply elem_of_nil in H; contradiction].
Qed.

Lemma frame_writes_keys (pgn : Z) (bytes : list Z) (k : string) :
  k ∈ (frame_writes pgn bytes).*1 -> k ∈ frame_keys pgn.
Proof.
  unfold frame_writes, frame_keys.
  destruct (_ =? 129025).
  { rewrite fmap_app, elem_of_app.
    intros [H|H]; [apply write_as_is_keys in H|apply write_as_is_keys in H];
      subst; rewrite !elem_of_cons; tauto. }
  destruct (_ =? 129026).
  { intros H. apply write_as_is_keys in H. subst. rewrite !elem_of_cons. tauto. }
  destruct (_ =? 127257).
  { rewrite !fmap_app, !elem_of_app.
    intros [H|[H|H]]; apply write_degrees_keys in H; subst;
      rewrite !elem_of_cons; tauto. }
  destruct (_ =? 127250).
  { intros H. apply write_degrees_keys in H. subst. rewrite !elem_of_cons. tauto. }
  intros H. exact H.
Qed.

Lemma frame_keys_disjoint (pgn1 pgn2 : Z) (k : string) :
  pgn1 <> pgn2 -> k ∈ frame_keys pgn1 -> k ∉ frame_keys pgn2.
Proof.
  intros Hne H1 H2. unfold frame_keys in H1, H2.
  destruct (Z.eqb_spec pgn1 129025); destruct (Z.eqb_spec pgn2 129025);
    try congruence;
    destruct (Z.eqb_spec pgn1 129026); destruct (Z.eqb_spec pgn2 129026);
    try congruence;
    destruct (Z.eqb_spec pgn1 127257); destruct (Z.eqb_spec pgn2 127257);
    try congruence;
    destruct (Z.eqb_spec pgn1 127250); destruct (Z.eqb_spec pgn2 127250);
    try congruence;
    repeat (apply elem_of_cons in H1 as [->|H1]);
    try (apply elem_of_nil in H1; contradiction);
    repeat (apply elem_of_cons in H2 as [?|H2]);
    try (apply elem_of_nil in H2; contradiction);
    discriminate.
Qed.

Lemma apply_writes_written (ws : list (string * pyval)) (m1 m2 : gmap string pyval)
    (k : string) :
  k ∈ ws.*1 -> apply_writes ws m1 !! k = apply_writes ws m2 !! k.
Proof.
  revert m1 m2. induction ws as [|[k0 v0] ws IH]; intros m1 m2 Hk.
  - apply elem_of_nil in Hk. contradiction.
  - change (apply_writes ws (<[k0 := v0]> m1) !! k
            = apply_writes ws (<[k0 := v0]> m2) !! k).
    destruct (decide (k ∈ ws.*1)) as [Hin|Hnin]; [apply IH, Hin|].
    cbn [fmap list_fmap fst] in Hk. apply elem_of_cons in Hk as [->|Hk];
      [|contradiction].
    rewrite !apply_writes_other by exact Hnin.
    rewrite !lookup_insert_eq. reflexivity.
Qed.

Lemma apply_writes_commute (ws1 ws2 : list (string * pyval)) (m : gmap string pyval) :
  (forall k, k ∈ ws1.*1 -> k ∉ ws2.*1) ->
  apply_writes ws1 (apply_writes ws2 m) = apply_writes ws2 (apply_writes ws1 m).
Proof.
  intros Hd. apply map_eq. intros k.
  destruct (decide (k ∈ ws1.*1)) as [H1|H1].
  - rewrite (apply_writes_other ws2) by (apply Hd, H1).
    apply apply_writes_written, H1.
  - rewrite (apply_writes_other ws1) by exact H1.
    destruct (decide (k ∈ ws2.*1)) as [H2|H2].
    + apply apply_writes_written, H2.
    + rewrite !apply_writes_other by assumption. reflexivity.
Qed.

Lemma apply_writes_dom (ws : list (string * pyval)) (k : string) :
  k ∈ dom (apply_writes ws ∅) <-> k ∈ ws.*1.
Proof.
  split.
  - intros H. destruct (decide (k ∈ ws.*1)) as [Hin|Hnin]; [exact Hin|].
    apply elem_of_dom in H as [v Hv].
    rewrite apply_writes_other in Hv by exact Hnin.
    rewrite lookup_empty in Hv. discriminate.
  - revert k. induction ws as [|[k0 v0] ws IH] using rev_ind; intros k Hk.
    + apply elem_of_nil in Hk. contradiction.
    + rewrite apply_writes_app. cbn [apply_writes fold_left fst snd].
      rewrite dom_insert_L. rewrite fmap_app, elem_of_app in Hk.
      destruct Hk as [Hk|Hk].
      * apply elem_of_union_r, IH, Hk.
      * cbn in Hk. apply list_elem_of_singleton in Hk. subst.
        apply elem_of_union_l, elem_of_singleton. reflexivity.
Qed.

(** X8.  Lines of different PGNs never write the same key, so the order
    in which two of them are processed makes no difference to the
    dictionary. *)
Theorem frames_of_different_pgns_commute (message1 message2 : string)
    (fr1 fr2 : RawFrame) (self : Furuno) :
  parse_frame message1 = Normal fr1 ->
  parse_frame message2 = Normal fr2 ->
  get_pgn_from_message (msgid fr1) <> get_pgn_from_message (msgid fr2) ->
  get_data (parse_raw_message message2 (parse_raw_message message1 self).2).2
    = get_data (parse_raw_message message1 (parse_raw_message message2 self).2).2.
Proof.
  intros H1 H2 Hne. unfold get_data.
  rewrite !line_writes_spec. unfold line_writes. rewrite H1, H2.
  apply apply_writes_commute. intros k Hk2 Hk1.
  apply frame_writes_keys in Hk1, Hk2.
  exact (frame_keys_disjoint _ _ k Hne Hk1 Hk2).
Qed.

Lemma frames_of_different_pgns_commute_witness :
  get_data (parse_raw_message "12:00:00.1 R 09F11200 00 00 10"
              (parse_raw_message "12:00:00.0 R 09F80100 00 2A 5B 1C 80 96 98 00"
                 init).2).2
    = get_data (parse_raw_message "12:00:00.0 R 09F80100 00 2A 5B 1C 80 96 98 00"
                  (parse_raw_message "12:00:00.1 R 09F11200 00 00 10" init).2).2.
Proof.
  apply (frames_of_different_pgns_commute
           "12:00:00.0 R 09F80100 00 2A 5B 1C 80 96 98 00"
           "12:00:00.1 R 09F11200 00 00 10"
           (MkRawFrame "12:00:00.0" "R" 0x09F80100
              [0x00; 0x2A; 0x5B; 0x1C; 0x80; 0x96; 0x98; 0x00])
           (MkRawFrame "12:00:00.1" "R" 0x09F11200 [0x00; 0x00; 0x10]) init).
  - reflexivity.
  - reflexivity.
  - vm_compute. discriminate.
Defined.

(** X9.  A later line overrides an earlier one as soon as it stores every
    key the earlier one stores (as seen on an empty dictionary): the
    dictionary after both is the dictionary after the later one alone.
    The earlier line may be of any kind, also one that does not parse. *)
Theorem later_line_overrides (message1 message2 : string) (self : Furuno) :
  dom (get_data (parse_raw_message message1 init).2)
    ⊆ dom (get_data (parse_raw_message message2 init).2) ->
  get_data (parse_raw_message message2 (parse_raw_message message1 self).2).2
    = get_data (parse_raw_message message2 self).2.
Proof.
  unfold get_data. rewrite !line_writes_spec. cbn [init data_dict].
  intros Hsub. apply apply_writes_ext. intros k Hk.
  apply apply_writes_other. intros Hk1. apply Hk.
  apply apply_writes_dom, Hsub, apply_writes_dom, Hk1.
Qed.

Lemma later_line_overrides_witness :
  get_data (parse_raw_message "12:00:00.1 R 09F11900 07 10 00 20 00 30 00"
              (parse_raw_message "12:00:00.0 R 09F11900 01 02 03"
                 (MkFuruno {[ "Heading"%string := VFloat 90 ]} [])).2).2
    = get_data (parse_raw_message "12:00:00.1 R 09F11900 07 10 00 20 00 30 00"
                  (MkFuruno {[ "Heading"%string := VFloat 90 ]} [])).2.
Proof.
  apply later_line_overrides. apply (bool_decide_unpack _). vm_compute. exact I.
Defined.

(** ** [SID] *)

(** X10.  [SID] is stored by PGN-129026 lines only, and there without any
    check: the first payload item is stored as it is, byte or not, and
    the rest of the payload is not looked at.  With an empty payload the
    field is reported as not decoded.  Lines of every other PGN leave
    [SID] as it was. *)
Theorem sid_is_stored_by_cog_sog_only (message : string) (fr : RawFrame)
    (self : Furuno) :
  parse_frame message = Normal fr ->
  let pgn := get_pgn_from_message (msgid fr) in
  let bytes := int_data_bytes fr in
  (pgn <> 129026 ->
     get_data (parse_raw_message message self).2 !! "SID"%string
       = get_data self !! "SID"%string)
  /\ (pgn = 129026 -> forall b rest, bytes = b :: rest ->
      parse_raw_message message self
        = (Normal tt,
           MkFuruno (<["SID"%string := VInt b]> (data_dict self))
             (stdout self ++
                if (List.length bytes <? 6)%nat
                then [WarnIncomplete 6 (List.length bytes) message] else [])))
  /\ (pgn = 129026 -> bytes = [] ->
      parse_raw_message message self
        = (Normal tt,
           MkFuruno (data_dict self)
             (stdout self ++
                [ WarnIncomplete 6 0 message; CouldNotDecode "SID" IndexError [] ]))).
Proof.
  intros Hparse pgn bytes. split; [|split].
  - intros Hne. unfold get_data. rewrite (parse_raw_message_writes _ _ _ Hparse).
    apply apply_writes_other. intros Hk. apply frame_writes_keys in Hk.
    revert Hk. apply (frame_keys_disjoint 129026).
    + intros E. apply Hne. symmetry. exact E.
    + cbn. apply elem_of_cons. left. reflexivity.
  - intros Hpgn b rest Hb.
    rewrite (parse_raw_message_frame _ _ _ Hparse), (decode_frame_cog_sog _ _ _ Hpgn).
    fold bytes. rewrite walk_cog_sog_eq, Hb. cbn [snd].
    change (slice (b :: rest) 0 1) with [b].
    change (decode_uint8_field [b]) with (@nil diagnostic, Normal (VInt b)).
    rewrite try_store_normal, print_all_nil.
    destruct (_ <? 6)%nat; unfold setitem, print; cbn [data_dict stdout];
      rewrite ?app_nil_r; reflexivity.
  - intros Hpgn Hb.
    rewrite (parse_raw_message_frame _ _ _ Hparse), (decode_frame_cog_sog _ _ _ Hpgn).
    fold bytes. rewrite walk_cog_sog_eq, Hb. cbn [snd].
    change (slice [] 0 1) with (@nil Z).
    change (decode_uint8_field []) with (@nil diagnostic, @Raised pyval IndexError).
    rewrite try_store_raised, print_all_nil.
    change (List.length (@nil Z) <? 6)%nat with true. cbv iota.
    unfold print. cbn [data_dict stdout]. rewrite <- app_assoc. reflexivity.
Qed.

Lemma sid_is_stored_by_cog_sog_only_witness :
  parse_raw_message "12:00:00.0 R 09F80200 1FF 02 03 04 05 06 07" init
    = (Normal tt, MkFuruno {[ "SID"%string := VInt 511 ]} []).
Proof.
  destruct (sid_is_stored_by_cog_sog_only
              "12:00:00.0 R 09F80200 1FF 02 03 04 05 06 07"
              (MkRawFrame "12:00:00.0" "R" 0x09F80200 [0x1FF; 2; 3; 4; 5; 6; 7])
              init eq_refl) as (_ & H & _).
  rewrite (H eq_refl 0x1FF [2; 3; 4; 5; 6; 7] eq_refl). vm_compute. reflexivity.
Defined.

(** ** Complete attitude and heading frames *)

(** X11.  A PGN-127257 line with at least seven payload items, of which
    items 1 to 6 are bytes, stores [Yaw], [Pitch] and [Roll], each the
    little-endian signed 16-bit integer of its two bytes times [1e-4],
    converted by [180 * _ / np.pi]; nothing is printed.  Item 0 (the
    sequence id) and any item after the seventh may be anything. *)
Theorem complete_attitude_frame (message : string) (fr : RawFrame) (self : Furuno)
    (sid y0 y1 p0 p1 r0 r1 : Z) (rest : list Z) :
  parse_frame message = Normal fr ->
  get_pgn_from_message (msgid fr) = 127257 ->
  int_data_bytes fr = sid :: y0 :: y1 :: p0 :: p1 :: r0 :: r1 :: rest ->
  forallb is_byte [y0; y1; p0; p1; r0; r1] = true ->
  let degrees := fun lo hi =>
    VFloat (180 * (Z2float (to_signed 16 (lo + 256 * hi)) * 1e-4) / np_pi) in
  parse_raw_message message self
    = (Normal tt,
       MkFuruno
         (<["Roll"%string := degrees r0 r1]>
            (<["Pitch"%string := degrees p0 p1]>
               (<["Yaw"%string := degrees y0 y1]> (data_dict self))))
         (stdout self)).
Proof.
  intros Hparse Hpgn Hbytes Hb degrees.
  rewrite (parse_raw_message_frame _ _ _ Hparse), (decode_frame_attitude _ _ _ Hpgn).
  rewrite Hbytes, walk_attitude_eq. cbn [snd].
  change (List.length _ <? 7)%nat with false. cbv iota zeta.
  change (slice (sid :: y0 :: y1 :: p0 :: p1 :: r0 :: r1 :: rest) 1 2) with [y0; y1].
  change (slice (sid :: y0 :: y1 :: p0 :: p1 :: r0 :: r1 :: rest) 3 2) with [p0; p1].
  change (slice (sid :: y0 :: y1 :: p0 :: p1 :: r0 :: r1 :: rest) 5 2) with [r0; r1].
  destruct (forallb_is_byte_app [y0; y1] [p0; p1; r0; r1] Hb) as [Hy Hb'].
  destruct (forallb_is_byte_app [p0; p1] [r0; r1] Hb') as [Hp Hr].
  rewrite (decode_angle_i16_bytes _ _ Hy), (decode_angle_i16_bytes _ _ Hp),
    (decode_angle_i16_bytes _ _ Hr), !le_uint_2.
  cbn [fst snd mbind completion_bind to_degrees].
  rewrite !try_store_normal, !print_all_nil. reflexivity.
Qed.

Lemma complete_attitude_frame_witness :
  get_data (parse_raw_message "12:00:00.0 R 09F11900 1FF 10 00 F0 FF 00 80 FF" init).2
    = {[ "Yaw"%string := VFloat 0.09167324722093173;
         "Pitch"%string := VFloat (-0.09167324722093173);
         "Roll"%string := VFloat (-187.74681030846818) ]}.
Proof.
  rewrite (complete_attitude_frame
              "12:00:00.0 R 09F11900 1FF 10 00 F0 FF 00 80 FF"
              (MkRawFrame "12:00:00.0" "R" 0x09F11900
                 [0x1FF; 0x10; 0x00; 0xF0; 0xFF; 0x00; 0x80; 0xFF])
              init 0x1FF 0x10 0x00 0xF0 0xFF 0x00 0x80 [0xFF]
              eq_refl eq_refl eq_refl eq_refl).
  vm_compute. reflexivity.
Defined.

Lemma decode_angle_u16_wrong_length (data : list Z) :
  forallb is_byte data = true -> List.length data <> 2%nat ->
  decode_angle_u16_field data = ([], Raised StructError).
Proof.
  intros Hb Hlen. unfold decode_angle_u16_field, silent.
  rewrite (py_bytes_ok _ Hb). cbn [mbind completion_bind].
  unfold unpack_H, unpack_le.
  destruct (Nat.eqb_spec (List.length data) 2); [contradiction|reflexivity].
Qed.

(** X12.  A PGN-127250 line with at least three payload items, of which
    items 1 and 2 are bytes, stores [Heading], the little-endian unsigned
    16-bit integer of the two bytes times [1e-4], converted by
    [180 * _ / np.pi], and prints nothing; item 0 and the items after the
    third may be anything.  With fewer than three items (bytes), nothing
    is stored: the length warning is printed and [Heading] is reported as
    not decoded. *)
Theorem heading_frame (message : string) (fr : RawFrame) (self : Furuno) :
  parse_frame message = Normal fr ->
  get_pgn_from_message (msgid fr) = 127250 ->
  let bytes := int_data_bytes fr in
  (forall sid h0 h1 rest,
     bytes = sid :: h0 :: h1 :: rest -> forallb is_byte [h0; h1] = true ->
     parse_raw_message message self
       = (Normal tt,
          MkFuruno
            (<["Heading"%string :=
                 VFloat (180 * (Z2float (h0 + 256 * h1) * 1e-4) / np_pi)]>
               (data_dict self))
            (stdout self)))
  /\ ((List.length bytes < 3)%nat -> forallb is_byte (drop 1 bytes) = true ->
      parse_raw_message message self
        = (Normal tt,
           MkFuruno (data_dict self)
             (stdout self ++
                [ WarnMessageLength (List.length bytes) 3 message;
                  CouldNotDecode "Heading" StructError (drop 1 bytes) ]))).
Proof.
  intros Hparse Hpgn bytes.
  rewrite (parse_raw_message_frame _ _ _ Hparse), (decode_frame_heading _ _ _ Hpgn).
  fold bytes. rewrite walk_heading_eq. cbn [snd]. split.
  - intros sid h0 h1 rest -> Hb.
    change (List.length _ <? 3)%nat with false. cbv iota.
    change (slice (sid :: h0 :: h1 :: rest) 1 2) with [h0; h1].
    rewrite (decode_angle_u16_bytes _ _ Hb), le_uint_2.
    cbn [fst snd mbind completion_bind to_degrees].
    rewrite try_store_normal, print_all_nil. reflexivity.
  - intros Hlen Hb.
    destruct (Nat.ltb_spec (List.length bytes) 3); [|lia].
    assert (Hs : slice bytes 1 2 = drop 1 bytes).
    { unfold slice. apply take_ge. rewrite length_drop. lia. }
    rewrite Hs, (decode_angle_u16_wrong_length _ Hb)
      by (rewrite length_drop; lia).
    cbn [fst snd mbind completion_bind].
    rewrite try_store_raised, print_all_nil.
    unfold print. cbn [data_dict stdout]. rewrite <- app_assoc. reflexivity.
Qed.

Lemma heading_frame_witness :
  parse_raw_message "12:00:00.0 R 09F11200 00 FF" init
    = (Normal tt,
       MkFuruno ∅
         [ WarnMessageLength 2 3 "12:00:00.0 R 09F11200 00 FF";
           CouldNotDecode "Heading" StructError [0xFF] ]).
Proof.
  destruct (heading_frame
              "12:00:00.0 R 09F11200 00 FF"
              (MkRawFrame "12:00:00.0" "R" 0x09F11200 [0x00; 0xFF])
              init eq_refl eq_refl) as [_ H].
  rewrite H; [reflexivity|cbn; lia|reflexivity].
Defined.

(** ** Signed and unsigned angles *)

(** X13.  On two bytes the signed decoder (used for [Yaw], [Pitch],
    [Roll]) and the unsigned decoder (used for [Heading]) return the same
    value as long as the high byte is below [0x80]; from [0x80] on the
    signed reading is the unsigned one minus 65536. *)
Theorem signed_and_unsigned_angles (b0 b1 : Z) :
  forallb is_byte [b0; b1] = true ->
  decode_angle_u16_field [b0; b1] = ([], Normal (VFloat (Z2float (b0 + 256 * b1) * 1e-4)))
  /\ (b1 < 0x80 ->
      decode_angle_i16_field [b0; b1] = decode_angle_u16_field [b0; b1])
  /\ (0x80 <= b1 ->
      decode_angle_i16_field [b0; b1]
        = ([], Normal (VFloat (Z2float (b0 + 256 * b1 - 65536) * 1e-4)))).
Proof.
  intros Hb.
  rewrite (decode_angle_u16_bytes _ _ Hb), (decode_angle_i16_bytes _ _ Hb), le_uint_2.
  cbn [forallb] in Hb. rewrite !andb_true_iff, !is_byte_range in Hb.
  destruct Hb as (? & ? & _).
  unfold to_signed. change (2 ^ (16 - 1)) with 32768. change (2 ^ 16) with 65536.
  split; [reflexivity|]. split; intros H1.
  - destruct (Z.ltb_spec (b0 + 256 * b1) 32768); [reflexivity|lia].
  - destruct (Z.ltb_spec (b0 + 256 * b1) 32768); [lia|reflexivity].
Qed.

Lemma signed_and_unsigned_angles_witness :
  decode_angle_i16_field [0x34; 0x12] = decode_angle_u16_field [0x34; 0x12]
  /\ decode_angle_i16_field [0x00; 0x80] = ([], Normal (VFloat (-3.2768))).
Proof.
  destruct (signed_and_unsigned_angles 0x34 0x12 eq_refl) as (_ & H & _).
  destruct (signed_and_unsigned_angles 0x00 0x80 eq_refl) as (_ & _ & H').
  split; [apply H; lia|]. rewrite H' by lia. vm_compute. reflexivity.
Defined.

(** ** Dates *)

Lemma date_eqb_eq (a b : Z * Z * Z) : date_eqb a b = true -> a = b.
Proof.
  destruct a as [[y m] d], b as [[y' m'] d']. unfold date_eqb.
  rewrite !andb_true_iff, !Z.eqb_eq. intros [[-> ->] ->]. reflexivity.
Qed.

Lemma holds_from_spec (f : Z -> bool) (count : nat) (n k : Z) :
  holds_from f count n = true -> n <= k < n + Z.of_nat count -> f k = true.
Proof.
  revert n. induction count as [|count IH]; intros n H Hk; [lia|].
  cbn [holds_from] in H. apply andb_true_iff in H as [Hn H].
  destruct (Z.eq_dec k n) as [->|Hne]; [exact Hn|].
  apply (IH (n + 1) H). lia.
Qed.

Lemma follows_spec (count : nat) (n : Z) (date : Z * Z * Z) (k : nat) :
  follows count n date = true -> (k < count)%nat ->
  civil_from_days (n + Z.of_nat k) = Nat.iter k next_day date
  /\ date_ok (Nat.iter k next_day date) = true.
Proof.
  revert n date k. induction count as [|count IH]; intros n date k H Hk; [lia|].
  cbn [follows] in H. rewrite !andb_true_iff in H. destruct H as [[Heq Hok] H].
  destruct k as [|k].
  - rewrite Z.add_0_r. apply date_eqb_eq in Heq. split; assumption.
  - rewrite Nat.iter_succ_r.
    replace (n + Z.of_nat (S k)) with (n + 1 + Z.of_nat k) by lia.
    apply (IH _ _ _ H). lia.
Qed.

Lemma all_day_counts_follow : follows (Z.to_nat 65536) 0 (1970, 1, 1) = true.
Proof. vm_cast_no_check (eq_refl true). Qed.

Lemma gmtime_whole_days (n : Z) : gmtime (n * 86400) = civil_from_days n.
Proof. unfold gmtime, civil_from_days. rewrite Z.div_mul by lia. reflexivity. Qed.

Lemma years_print_in_4 : holds_from (prints_in 4) 180 1970 = true.
Proof. vm_cast_no_check (eq_refl true). Qed.

Lemma days_print_in_2 : holds_from (prints_in 2) 31 1 = true.
Proof. vm_cast_no_check (eq_refl true). Qed.

Lemma length_append (a b : string) :
  String.length (a +:+ b) = (String.length a + String.length b)%nat.
Proof.
  induction a as [|c a IH]; [reflexivity|].
  change (S (String.length (a +:+ b)) = S (String.length a + String.length b)).
  rewrite IH. reflexivity.
Qed.

Lemma days_in_month_le (y m : Z) : days_in_month y m <= 31.
Proof.
  unfold days_in_month.
  destruct (m =? 2); [destruct (is_leap y); lia|].
  destruct (_ || _); lia.
Qed.

Lemma strftime_Ymd_length (y m d : Z) :
  date_ok (y, m, d) = true -> String.length (strftime_Ymd (y, m, d)) = 10%nat.
Proof.
  unfold date_ok. rewrite !andb_true_iff, !Z.leb_le.
  intros [[[[[? ?] ?] ?] ?] ?]. pose proof (days_in_month_le y m).
  assert (Hy : prints_in 4 y = true)
    by (apply (holds_from_spec _ _ _ _ years_print_in_4); lia).
  assert (Hm : prints_in 2 m = true)
    by (apply (holds_from_spec _ _ _ _ days_print_in_2); lia).
  assert (Hd : prints_in 2 d = true)
    by (apply (holds_from_spec _ _ _ _ days_print_in_2); lia).
  unfold prints_in in *. apply Nat.eqb_eq in Hy, Hm, Hd.
  unfold strftime_Ymd. rewrite !length_append, Hy, Hm, Hd. reflexivity.
Qed.

(** X14.  [decode_date_field] reads the first two items as a day count
    [n] (little-endian) and returns the date reached from 1970-01-01 by
    [n] steps to the next day of the Gregorian calendar, printed as ten
    characters [YYYY-MM-DD]; the date lies between 1970 and 2149.  Items
    after the second are ignored. *)
Theorem date_decoder_follows_the_calendar (b0 b1 : Z) (rest : list Z) :
  forallb is_byte [b0; b1] = true ->
  let date := Nat.iter (Z.to_nat (b0 + 256 * b1)) next_day (1970, 1, 1) in
  decode_date_field (b0 :: b1 :: rest) = ([], Normal (VStr (strftime_Ymd date)))
  /\ String.length (strftime_Ymd date) = 10%nat
  /\ (1970 <= date.1.1 <= 2149
      /\ 1 <= date.1.2 <= 12
      /\ 1 <= date.2 <= days_in_month date.1.1 date.1.2).
Proof.
  intros Hb date.
  pose proof (le_uint_2_range _ _ Hb) as R. rewrite le_uint_2 in R.
  change (2 ^ 16) with 65536 in R.
  destruct (follows_spec _ _ _ (Z.to_nat (b0 + 256 * b1)) all_day_counts_follow)
    as [Hciv Hok]; [lia|].
  fold date in Hciv, Hok. rewrite Z.add_0_l, Z2Nat.id in Hciv by lia.
  split; [|split].
  - unfold decode_date_field, silent.
    change (take 2 (b0 :: b1 :: rest)) with [b0; b1].
    rewrite (py_bytes_ok _ Hb). cbn [mbind completion_bind].
    unfold unpack_H, unpack_le. cbn [List.length Nat.eqb]. cbv iota.
    rewrite le_uint_2. cbn [mbind completion_bind].
    rewrite gmtime_whole_days, Hciv. reflexivity.
  - destruct date as [[y m] d]. apply strftime_Ymd_length, Hok.
  - destruct date as [[y m] d]. unfold date_ok in Hok.
    rewrite !andb_true_iff, !Z.leb_le in Hok. cbn [fst snd]. lia.
Qed.

Lemma date_decoder_follows_the_calendar_witness :
  decode_date_field [0x0B; 0x4D; 0xFF] = ([], Normal (VStr "2024-01-01")).
Proof.
  destruct (date_decoder_follows_the_calendar 0x0B 0x4D [0xFF] eq_refl) as [-> _].
  vm_compute. reflexivity.
Defined.

(** ** Manufacturer and industry codes *)

Lemma lor_shiftl_3 (a c : Z) : 0 <= c < 8 -> Z.lor (Z.shiftl a 3) c = 8 * a + c.
Proof.
  intros Hc. rewrite Z.shiftl_mul_pow2 by lia.
  rewrite <- Z.add_nocarry_lor; [change (2 ^ 3) with 8; lia|].
  apply Z.bits_inj'. intros i Hi. rewrite Z.land_spec, Z.bits_0.
  destruct (Z.ltb_spec i 3).
  - rewrite Z.mul_pow2_bits_low by lia. reflexivity.
  - rewrite <- (Z.mod_small c (2 ^ 3)) by (change (2 ^ 3) with 8; lia).
    rewrite Z.mod_pow2_bits_high by lia. apply andb_false_r.
Qed.

(** X15.  On two bytes [d0 d1], taken together as the 16-bit number
    [256 * d0 + d1], [decode_manufacturer_field] returns its upper 11 bits
    and [decode_industry_field] its lowest 3 bits.  Further items are
    ignored. *)
Theorem manufacturer_and_industry_bits (d0 d1 : Z) (rest : list Z) :
  forallb is_byte [d0; d1] = true ->
  decode_manufacturer_field (d0 :: d1 :: rest)
    = ([], Normal (VInt ((256 * d0 + d1) / 2 ^ 5)))
  /\ decode_industry_field (d0 :: d1 :: rest)
    = ([], Normal (VInt ((256 * d0 + d1) mod 2 ^ 3)))
  /\ 0 <= (256 * d0 + d1) / 2 ^ 5 < 2 ^ 11.
Proof.
  intros Hb. cbn [forallb] in Hb. rewrite !andb_true_iff, !is_byte_range in Hb.
  destruct Hb as (H0 & H1 & _).
  unfold decode_manufacturer_field, decode_industry_field, silent, index.
  cbn [lookup list_lookup mbind completion_bind].
  assert (Hq : (256 * d0 + d1) / 2 ^ 5 = 8 * d0 + d1 / 2 ^ 5).
  { replace (256 * d0 + d1) with (d1 + (8 * d0) * 2 ^ 5) by (change (2 ^ 5) with 32; lia).
    rewrite Z.div_add by lia. lia. }
  split; [|split].
  - rewrite Z.shiftr_div_pow2 by lia. rewrite lor_shiftl_3, Hq; [reflexivity|].
    change (2 ^ 5) with 32. split; [apply Z.div_pos; lia|].
    apply Z.div_lt_upper_bound; lia.
  - change 7 with (Z.ones 3). rewrite Z.land_ones by lia.
    replace (256 * d0 + d1) with (d1 + (32 * d0) * 2 ^ 3) by (change (2 ^ 3) with 8; lia).
    rewrite Z.mod_add by lia. reflexivity.
  - change (2 ^ 5) with 32. change (2 ^ 11) with 2048. split.
    + apply Z.div_pos; lia.
    + apply Z.div_lt_upper_bound; lia.
Qed.

Lemma manufacturer_and_industry_bits_witness :
  decode_manufacturer_field [0xE5; 0x24] = ([], Normal (VInt 1833))
  /\ decode_industry_field [0xE5; 0x24] = ([], Normal (VInt 4)).
Proof.
  destruct (manufacturer_and_industry_bits 0xE5 0x24 [] eq_refl) as (-> & -> & _).
  split; reflexivity.
Defined.

(** ** [strip] before [split] *)

Lemma split_go_lstrip (s : string) : split_go (lstrip s) [] = split_go s [].
Proof.
  induction s as [|c s IH]; [reflexivity|].
  cbn [lstrip split_go]. destruct (py_isspace c) eqn:E.
  - rewrite IH. reflexivity.
  - cbn [split_go]. rewrite E. reflexivity.
Qed.

Lemma lstrip_chars (s : string) :
  exists w, forallb py_isspace w = true
            /\ list_ascii_of_string s = w ++ list_ascii_of_string (lstrip s).
Proof.
  induction s as [|c s (w & Hw & IH)]; [exists []; split; reflexivity|].
  cbn [lstrip]. destruct (py_isspace c) eqn:E.
  - exists (c :: w). split; [cbn [forallb]; rewrite E, Hw; reflexivity|].
    cbn [list_ascii_of_string]. rewrite IH. reflexivity.
  - exists []. split; reflexivity.
Qed.

Lemma split_go_spaces (w : list ascii) (tok : list ascii) :
  forallb py_isspace w = true ->
  split_go (string_of_list_ascii w) tok = flush tok.
Proof.
  revert tok. induction w as [|c w IH]; intros tok H; [reflexivity|].
  cbn [forallb] in H. apply andb_true_iff in H as [Hc Hw].
  cbn [string_of_list_ascii split_go]. rewrite Hc, (IH [] Hw).
  apply app_nil_r.
Qed.

Lemma split_go_trailing_spaces (l w : list ascii) (tok : list ascii) :
  forallb py_isspace w = true ->
  split_go (string_of_list_ascii (l ++ w)) tok = split_go (string_of_list_ascii l) tok.
Proof.
  intros Hw. revert tok. induction l as [|c l IH]; intros tok.
  - cbn [app string_of_list_ascii split_go]. apply split_go_spaces, Hw.
  - cbn [app string_of_list_ascii split_go]. rewrite !IH. reflexivity.
Qed.

Lemma forallb_rev {A} (f : A -> bool) (l : list A) :
  forallb f l = true -> forallb f (rev l) = true.
Proof.
  rewrite !forallb_forall. intros H x Hx. apply H, in_rev, Hx.
Qed.

Lemma str_split_strip (s : string) : str_split (str_strip s) = str_split s.
Proof.
  unfold str_split, str_strip.
  rewrite <- (split_go_lstrip s).
  set (t := lstrip s).
  destruct (lstrip_chars (string_of_list_ascii (rev (list_ascii_of_string t))))
    as (w & Hw & Hchars).
  rewrite list_ascii_of_string_of_list_ascii in Hchars.
  set (r := lstrip (string_of_list_ascii (rev (list_ascii_of_string t)))) in *.
  assert (Ht : list_ascii_of_string t = rev (list_ascii_of_string r) ++ rev w).
  { rewrite <- rev_app_distr, <- Hchars, rev_involutive. reflexivity. }
  rewrite <- (string_of_list_ascii_of_string t), Ht.
  symmetry. apply split_go_trailing_spaces, forallb_rev, Hw.
Qed.

Lemma parse_frame_strip (line : string) :
  parse_frame (str_strip line) = parse_frame line.
Proof. unfold parse_frame. rewrite str_split_strip. reflexivity. Qed.

Lemma parse_raw_message_strip (line : string) (self : Furuno) :
  (parse_raw_message (str_strip line) self).1 = (parse_raw_message line self).1
  /\ data_dict (parse_raw_message (str_strip line) self).2
     = data_dict (parse_raw_message line self).2.
Proof.
  split.
  - unfold parse_raw_message. rewrite parse_frame_strip.
    destruct (parse_frame line); reflexivity.
  - rewrite !line_writes_spec. unfold line_writes.
    rewrite parse_frame_strip. reflexivity.
Qed.

(** X16.  The [strip()] that [run] applies to each line changes nothing of
    what the line does: leading and trailing whitespace is dropped by
    [split()] anyway, so stripped or not the line yields the same tokens,
    completes the same way (normally, or with the same exception) and
    leaves the same dictionary.  Only the text quoted in a length warning
    differs. *)
Theorem strip_changes_nothing (line : string) (self : Furuno) :
  str_split (str_strip line) = str_split line
  /\ (parse_raw_message (str_strip line) self).1 = (parse_raw_message line self).1
  /\ get_data (parse_raw_message (str_strip line) self).2
     = get_data (parse_raw_message line self).2.
Proof.
  split; [apply str_split_strip|]. apply parse_raw_message_strip.
Qed.

(** ** The loop *)

Lemma run_app (lines1 lines2 : list string) (self : Furuno) :
  run (lines1 ++ lines2) self
    = match run lines1 self with
      | (Normal _, self') => run lines2 self'
      | (Raised e, self') => (Raised e, self')
      end.
Proof.
  revert self. induction lines1 as [|line rest IH]; intros self; [reflexivity|].
  cbn [app run].
  destruct (parse_raw_message (str_strip line) self) as [[[]|e] self'];
    [apply IH|reflexivity].
Qed.

(** X17.  [run] gets through a list of lines without an exception exactly
    when every one of them parses (has at least three tokens, the third
    and all later ones base-16).  Then the dictionary it leaves is the one
    obtained by processing the lines one after the other, and processing
    can be resumed: running two batches in a row is running their
    concatenation. *)
Theorem run_completes_iff_all_lines_parse (lines : list string) (self : Furuno) :
  ((run lines self).1 = Normal tt
   <-> forall line, line ∈ lines -> exists fr, parse_frame line = Normal fr)
  /\ ((run lines self).1 = Normal tt ->
      get_data (run lines self).2
        = get_data (fold_left (fun s line => (parse_raw_message line s).2) lines self)
      /\ forall more, run (lines ++ more) self = run more (run lines self).2).
Proof.
  split.
  - revert self. induction lines as [|line rest IH]; intros self.
    + split; [intros _ line H; apply elem_of_nil in H; contradiction|reflexivity].
    + cbn [run]. unfold parse_raw_message at 1. rewrite parse_frame_strip.
      destruct (parse_frame line) as [fr|e] eqn:E.
      * rewrite IH. split.
        -- intros H l Hl. apply elem_of_cons in Hl as [->|Hl]; [eauto|apply H, Hl].
        -- intros H l Hl. apply H. right. exact Hl.
      * split; [discriminate|]. intros H.
        destruct (H line) as [fr Hfr]; [left|congruence].
  - intros Hok. split.
    + revert self Hok. induction lines as [|line rest IH]; intros self Hok;
        [reflexivity|].
      cbn [run fold_left] in *.
      pose proof (parse_raw_message_strip line self) as [H1 H2].
      destruct (parse_raw_message (str_strip line) self) as [[[]|e] self'];
        [|discriminate].
      rewrite (IH self' Hok). unfold get_data. cbn [snd] in H2.
      clear - H2. revert self' H2.
      generalize ((parse_raw_message line self).2). intros s2 s1 H.
      revert s1 s2 H. induction rest as [|l rest IH]; intros s1 s2 H; [exact H|].
      cbn [fold_left]. apply IH. rewrite !line_writes_spec, H. reflexivity.
    + intros more. rewrite run_app.
      destruct (run lines self) as [[[]|e] self']; [reflexivity|discriminate].
Qed.

Lemma str_split_blank (line : string) :
  forallb py_isspace (list_ascii_of_string line) = true -> str_split line = [].
Proof.
  intros H. unfold str_split. rewrite <- (string_of_list_ascii_of_string line).
  apply (split_go_spaces _ [] H).
Qed.

(** X18.  A blank line (empty, or whitespace only: what a read that
    timed out delivers) ends [run] with [IndexError]: the lines after it
    are never processed, and the object is left as the lines before it
    made it. *)
Theorem blank_line_ends_run (before after : list string) (line : string)
    (self : Furuno) :
  forallb py_isspace (list_ascii_of_string line) = true ->
  (run before self).1 = Normal tt ->
  run (before ++ line :: after) self = (Raised IndexError, (run before self).2).
Proof.
  intros Hblank Hok. rewrite run_app.
  destruct (run before self) as [[[]|e] self']; [|discriminate].
  cbn [run snd]. unfold parse_raw_message, parse_frame.
  rewrite str_split_strip, (str_split_blank _ Hblank). reflexivity.
Qed.

Lemma blank_line_ends_run_witness :
  run [ "12:00:00.0 R 09F11200 00 00 10"; " "; "12:00:00.1 R 09F80200 05" ]%string init
    = (Raised IndexError,
       MkFuruno {[ "Heading"%string := VFloat 23.468351288558523 ]} []).
Proof.
  pose proof (blank_line_ends_run ["12:00:00.0 R 09F11200 00 00 10"%string]
                ["12:00:00.1 R 09F80200 05"%string] " " init eq_refl eq_refl) as H.
  cbn [app] in H. rewrite H. vm_compute. reflexivity.
Defined.

(** ** Each PGN keeps to its own keys *)

(** X19.  A line changes no key outside the ones of its PGN: a PGN-129025
    line leaves everything but [Latitude] and [Longitude] as it was, a
    PGN-129026 line everything but [SID], a PGN-127257 line everything but
    [Yaw], [Pitch], [Roll], a PGN-127250 line everything but [Heading]. *)
Theorem line_touches_the_keys_of_its_pgn_only (message : string) (fr : RawFrame)
    (self : Furuno) (k : string) :
  parse_frame message = Normal fr ->
  k ∉ frame_keys (get_pgn_from_message (msgid fr)) ->
  get_data (parse_raw_message message self).2 !! k = get_data self !! k.
Proof.
  intros Hparse Hk. unfold get_data. rewrite (parse_raw_message_writes _ _ _ Hparse).
  apply apply_writes_other. intros Hin. apply Hk, (frame_writes_keys _ _ _ Hin).
Qed.

Lemma line_touches_the_keys_of_its_pgn_only_witness :
  get_data (parse_raw_message "12:00:00.0 R 09F11900 00 10 00 20 00 30 00"
              (MkFuruno {[ "Heading"%string := VFloat 90 ]} [])).2 !! "Heading"%string
    = Some (VFloat 90).
Proof.
  rewrite (line_touches_the_keys_of_its_pgn_only
             "12:00:00.0 R 09F11900 00 10 00 20 00 30 00"
             (MkRawFrame "12:00:00.0" "R" 0x09F11900 [0; 0x10; 0; 0x20; 0; 0x30; 0])
             (MkFuruno {[ "Heading"%string := VFloat 90 ]} []) "Heading" eq_refl).
  - reflexivity.
  - change ("Heading"%string ∉ ["Yaw"; "Pitch"; "Roll"]%string).
    rewrite !elem_of_cons, elem_of_nil.
    intros [H|[H|[H|[]]]]; discriminate.
Defined.

(** ** Lines in the documented format *)

Lemma in_all_ascii (c : ascii) : In c all_ascii.
Proof.
  unfold all_ascii. rewrite <- (ascii_nat_embedding c).
  apply in_map, in_seq. pose proof (nat_ascii_bounded c). lia.
Qed.

Lemma all_byte_tokens_ok :
  forallb (fun c1 => forallb (byte_token_ok c1) all_ascii) all_ascii = true.
Proof. vm_cast_no_check (eq_refl true). Qed.

Lemma byte_token_parses (tok : string) :
  byte_token tok = true -> exists b, py_int16 tok = Some b /\ is_byte b = true.
Proof.
  intros H.
  assert (Hp : parses_to_byte tok = true).
  { destruct tok as [|c1 [|c2 [|c3 tok]]]; try discriminate.
    - pose proof (proj1 (forallb_forall _ _) all_byte_tokens_ok c1 (in_all_ascii c1)) as H1.
      pose proof (proj1 (forallb_forall _ _) H1 c1 (in_all_ascii c1)) as H2.
      unfold byte_token_ok in H2. cbn [byte_token] in H. rewrite H in H2.
      apply andb_true_iff in H2 as [H2 _]. exact H2.
    - pose proof (proj1 (forallb_forall _ _) all_byte_tokens_ok c1 (in_all_ascii c1)) as H1.
      pose proof (proj1 (forallb_forall _ _) H1 c2 (in_all_ascii c2)) as H2.
      unfold byte_token_ok in H2. cbn [byte_token] in H. rewrite H in H2.
      apply andb_true_iff in H2 as [_ H2]. exact H2. }
  unfold parses_to_byte in Hp. destruct (py_int16 tok) as [b|]; [eauto|discriminate].
Qed.

Lemma int16_all_byte_tokens (toks : list string) :
  forallb byte_token toks = true ->
  exists bs, int16_all toks = Normal bs
             /\ forallb is_byte bs = true /\ List.length bs = List.length toks.
Proof.
  induction toks as [|t toks IH]; intros H; [exists []; repeat split|].
  cbn [forallb] in H. apply andb_true_iff in H as [Ht H].
  destruct (byte_token_parses t Ht) as (b & Hb & Hbyte).
  destruct (IH H) as (bs & Hbs & Hall & Hlen).
  exists (b :: bs). cbn [int16_all forallb List.length].
  rewrite Hb, Hbs, Hbyte, Hall, Hlen. repeat split.
Qed.

(** X20.  A line in the documented format, that is at least three tokens
    of which the third is base-16 and every later one consists of one or
    two hexadecimal digits, always parses, and its payload consists of
    bytes, one per token: on such lines no decoder can fail on an item out
    of byte range. *)
Theorem documented_lines_carry_bytes (message t d id : string) (toks : list string)
    (m : Z) :
  str_split message = t :: d :: id :: toks ->
  py_int16 id = Some m ->
  forallb byte_token toks = true ->
  exists bs,
    parse_frame message = Normal (MkRawFrame t d m bs)
    /\ forallb is_byte bs = true
    /\ List.length bs = List.length toks.
Proof.
  intros Hsplit Hid Htoks.
  destruct (int16_all_byte_tokens toks Htoks) as (bs & Hbs & Hall & Hlen).
  exists bs. split; [|split; assumption].
  pose proof (parse_frame_cases message) as Hc. rewrite Hsplit in Hc.
  rewrite Hc. unfold int16. rewrite Hid. cbn [mbind completion_bind].
  rewrite Hbs. reflexivity.
Qed.

Lemma documented_lines_carry_bytes_witness :
  exists bs,
    parse_frame "12:00:00.0 R 09F11200 0 a FF"
      = Normal (MkRawFrame "12:00:00.0" "R" 0x09F11200 bs)
    /\ forallb is_byte bs = true /\ List.length bs = 3%nat.
Proof.
  apply (documented_lines_carry_bytes
           "12:00:00.0 R 09F11200 0 a FF" "12:00:00.0" "R" "09F11200"
           ["0"; "a"; "FF"]%string 0x09F11200); reflexivity.
Defined.
